(** * scometrics: the journal-matching notebook, embedded and verified

    Source: [notebooks/journals.ipynb].  The notebook is a sequence of
    PySpark cells; every definition below names the notebook line it is
    translated from.  Spark columns are nullable: a column value is an
    [option string] with [None] for SQL NULL, and SQL conditions are
    three-valued.  Titles are byte strings.  The engine's [lower()] is a
    parameter of the development (class [Lower]): it follows the Unicode
    case tables, which are not part of the notebook; on strings of ASCII
    characters it is [Text.ascii_lower].  The engine leaves the
    order of grouped and joined rows, and of rows with equal counts, open:
    the lists computed here are one such order, and the general properties
    below do not depend on it. *)

From Stdlib Require Import Ascii String List ZArith Lia Bool Permutation Sorted.
From stdpp Require Import base strings list gmap.

Local Open Scope string_scope.
Set Warnings "-register-all,-clear-no-such-hyp".

(** ** Text functions of the query engine *)

(** [lower(col)], as the engine computes it. *)
Class Lower := lower : string -> string.

Module Text.

(** [lower(col)] on one character: A..Z are moved to a..z. *)
Definition is_upper (c : ascii) : bool :=
  let n := N_of_ascii c in (65 <=? n)%N && (n <=? 90)%N.

Definition lower_char (c : ascii) : ascii :=
  if is_upper c then ascii_of_N (N_of_ascii c + 32) else c.

(** What [lower()] does to a string of ASCII characters. *)
Fixpoint ascii_lower (s : string) : string :=
  match s with
  | EmptyString => EmptyString
  | String c s' => String (lower_char c) (ascii_lower s')
  end.

Fixpoint is_ascii (s : string) : bool :=
  match s with
  | EmptyString => true
  | String c s' => (N_of_ascii c <? 128)%N && is_ascii s'
  end.

(** Does [s] start with [pat]? *)
Fixpoint starts_with (pat s : string) : bool :=
  match pat, s with
  | EmptyString, _ => true
  | String _ _, EmptyString => false
  | String a pat', String b s' => Ascii.eqb a b && starts_with pat' s'
  end.

(** [regexp_replace(col, pat, rep)] for a pattern without regex
    metacharacters (a non-empty literal): the matcher scans left to right,
    replaces each match and resumes right after it, so matches never
    overlap.  [skip] counts the characters of the current match that are
    still to be consumed. *)
Fixpoint replace_from (pat rep : string) (skip : nat) (s : string) : string :=
  match s with
  | EmptyString => EmptyString
  | String c s' =>
      match skip with
      | S k => replace_from pat rep k s'
      | O =>
          if starts_with pat s
          then rep +:+ replace_from pat rep (String.length pat - 1) s'
          else String c (replace_from pat rep 0 s')
      end
  end.

Definition regexp_replace (s pat rep : string) : string :=
  replace_from pat rep 0 s.

(** Substring test, used to state where a pattern occurs. *)
Fixpoint contains (pat s : string) : bool :=
  match s with
  | EmptyString => starts_with pat EmptyString
  | String _ s' => starts_with pat s || contains pat s'
  end.

(** Two strings that differ only in the case of their ASCII letters. *)
Definition is_lower (c : ascii) : bool :=
  let n := N_of_ascii c in (97 <=? n)%N && (n <=? 122)%N.

Definition swap_case (c : ascii) : ascii :=
  if is_upper c then ascii_of_N (N_of_ascii c + 32)
  else if is_lower c then ascii_of_N (N_of_ascii c - 32)
  else c.

Fixpoint differ_only_in_case (x y : string) : bool :=
  match x, y with
  | EmptyString, EmptyString => true
  | String a x', String b y' =>
      (Ascii.eqb a b || Ascii.eqb (swap_case a) b) && differ_only_in_case x' y'
  | _, _ => false
  end.

(** The subscription titles' normalisation (lines 385-386):
    [lower] followed by [regexp_replace(' & ', ' and ')]. *)
Definition normalize `{Lower} (s : string) : string :=
  regexp_replace (lower s) " & " " and ".

End Text.

(** What the properties of [normalize] use of the engine's [lower()]: on
    ASCII strings it moves A..Z to a..z, a lower-cased string is left alone,
    and a string in lower case stays so when [" & "] becomes [" and "]. *)
Class LowerLaws `{Lower} := {
  lower_ascii : forall s, Text.is_ascii s = true -> lower s = Text.ascii_lower s;
  lower_lower : forall s, lower (lower s) = lower s;
  lower_replaced : forall s,
    lower s = s ->
    lower (Text.regexp_replace s " & " " and ") = Text.regexp_replace s " & " " and "
}.

(** ** Three-valued SQL conditions *)

Module Sql.

(** A cell of a frame: NULL, a string, or an integer (the [count]
    column).  [None] in an [option string] field is NULL. *)
Inductive value :=
| VNull
| VStr (s : string)
| VInt (n : Z).

Definition of_str (o : option string) : value :=
  match o with Some s => VStr s | None => VNull end.

(** TRUE, FALSE and NULL (unknown) are [Some true], [Some false], [None]. *)
Definition tri := option bool.

Definition str_eqb (a b : string) : bool := bool_decide (a = b).

(** [a == b]: unknown as soon as one side is NULL.  The notebook only
    compares strings with strings; other pairings are left unknown. *)
Definition sql_eq (a b : value) : tri :=
  match a, b with
  | VStr x, VStr y => Some (str_eqb x y)
  | VInt x, VInt y => Some (x =? y)%Z
  | _, _ => None
  end.

Definition sql_not (t : tri) : tri := negb <$> t.

(** [a != b] *)
Definition sql_neq (a b : value) : tri := sql_not (sql_eq a b).

(** [&] : FALSE wins over NULL. *)
Definition sql_and (a b : tri) : tri :=
  match a, b with
  | Some false, _ | _, Some false => Some false
  | Some true, Some true => Some true
  | _, _ => None
  end.

(** [|] : TRUE wins over NULL. *)
Definition sql_or (a b : tri) : tri :=
  match a, b with
  | Some true, _ | _, Some true => Some true
  | Some false, Some false => Some false
  | _, _ => None
  end.

(** A filter or a join keeps a row only when its condition is TRUE. *)
Definition holds (t : tri) : bool :=
  match t with Some true => true | _ => false end.

(** [col.isNull()] *)
Definition isNull (v : value) : bool :=
  match v with VNull => true | _ => false end.

End Sql.

(** ** Errors raised by a cell *)

Inductive error :=
| NameError (name : string)           (* a name that no cell has bound *)
| AttributeError (name : string)      (* [df.name] on a frame without that column *)
| AnalysisException (msg : string)    (* raised by the engine: bad expression, unknown column, path exists *)
| TypeError.

Inductive result (A : Type) :=
| Ok (a : A)
| Err (e : error).
Arguments Ok {A} a.
Arguments Err {A} e.

#[global] Instance result_fmap : FMap result :=
  fun A B f r => match r with Ok a => Ok (f a) | Err e => Err e end.

(** A cell is a computation in the error monad: the first exception ends it. *)
#[global] Instance result_bind : MBind result :=
  fun A B k r => match r with Ok a => k a | Err e => Err e end.
#[global] Instance result_ret : MRet result := fun A a => Ok a.

(** ** Python values: [my_zip] and the [and] operator *)

Module Py.

Inductive pyval :=
| PyNone
| PyStr (s : string)
| PyList (items : list pyval)
| PyTuple (items : list pyval)
| PyZip (items : list pyval).   (* a zip iterator and what it yields *)

Definition isinstance_list (x : pyval) : bool :=
  match x with PyList _ => true | _ => false end.

(** [zip(x, y)] on two lists yields the tuples [(x[i], y[i])] and stops
    with the shorter list. *)
Fixpoint zip_items (xs ys : list pyval) : list pyval :=
  match xs, ys with
  | x :: xs', y :: ys' => PyTuple [x; y] :: zip_items xs' ys'
  | _, _ => []
  end.

Definition list_items (x : pyval) : list pyval :=
  match x with PyList items => items | _ => [] end.

(** Lines 168-172. *)
Definition my_zip (x y : pyval) : pyval :=
  if isinstance_list x && isinstance_list y
  then PyZip (zip_items (list_items x) (list_items y))
  else PyList [x; y].

(** [list(obj)] : the items of an iterable, in a new list. *)
Definition py_list (x : pyval) : result pyval :=
  match x with
  | PyList items | PyTuple items | PyZip items => Ok (PyList items)
  | PyStr s => Ok (PyList (map (fun c => PyStr (String c EmptyString)) (list_ascii_of_string s)))
  | PyNone => Err TypeError
  end.

(** Line 176: the function wrapped by the [zip_] UDF. *)
Definition zip_ (x y : pyval) : result pyval := py_list (my_zip x y).

(** Truth value of an object: [None], the empty string and the empty
    containers are falsy. *)
Definition truthy (x : pyval) : bool :=
  match x with
  | PyNone => false
  | PyStr s => negb (Sql.str_eqb s "")
  | PyList l | PyTuple l => negb (Nat.eqb (length l) 0)
  | PyZip _ => true
  end.

(** [x and y] evaluates [x]; a falsy [x] is the result, otherwise [y] is. *)
Definition py_and (x y : pyval) : pyval :=
  if truthy x then y else x.

(** [s.replace(old, new)] for a non-empty [old]: every occurrence, left to
    right, without overlap. *)
Definition str_replace (s old new : string) : string :=
  Text.replace_from old new 0 s.

End Py.

(** ** Data frames: typed rows with named columns *)

Module Frame.
Import Sql.

Record DataFrame (R : Type) := mkDF {
  schema : list (string * (R -> value));
  rows : list R
}.
Arguments mkDF {R} schema rows.
Arguments schema {R} d.
Arguments rows {R} d.

Definition columns {R} (df : DataFrame R) : list string := (schema df).*1.

Fixpoint lookup_col {R} (sch : list (string * (R -> value))) (name : string)
  : option (R -> value) :=
  match sch with
  | [] => None
  | (n, f) :: sch' => if str_eqb n name then Some f else lookup_col sch' name
  end.

(** [df.name]: attribute access on a frame. *)
Definition getattr {R} (df : DataFrame R) (name : string) : result (R -> value) :=
  match lookup_col (schema df) name with
  | Some f => Ok f
  | None => Err (AttributeError name)
  end.

(** [df.filter(column_condition)] *)
Definition filter_by {R} (cond : R -> tri) (df : DataFrame R) : DataFrame R :=
  mkDF (schema df) (List.filter (fun r => holds (cond r)) (rows df)).

(** *** Conditions given as SQL text: [lhs!=rhs] *)

Inductive operand :=
| Col (name : string)
| Lit (s : string).

Fixpoint split_neq (s : string) : option (string * string) :=
  match s with
  | EmptyString => None
  | String c s' =>
      if Text.starts_with "!=" s
      then Some (EmptyString, match s' with String _ r => r | EmptyString => EmptyString end)
      else match split_neq s' with
           | Some (l, r) => Some (String c l, r)
           | None => None
           end
  end.

Fixpoint strip_closing_quote (s : string) : option string :=
  match s with
  | EmptyString => None
  | String c EmptyString => if Ascii.eqb c "'" then Some EmptyString else None
  | String c s' => String c <$> strip_closing_quote s'
  end.

Definition parse_operand (s : string) : operand :=
  match s with
  | String c r =>
      if Ascii.eqb c "'"
      then match strip_closing_quote r with Some l => Lit l | None => Col s end
      else Col s
  | EmptyString => Col s
  end.

Definition resolve {R} (df : DataFrame R) (o : operand) : result (R -> value) :=
  match o with
  | Lit s => Ok (fun _ => VStr s)
  | Col n =>
      match lookup_col (schema df) n with
      | Some f => Ok f
      | None => Err (AnalysisException ("cannot resolve " +:+ n))
      end
  end.

(** [df.filter("lhs!=rhs")]: the text is parsed and its columns resolved
    against the frame before any row is looked at. *)
Definition filter_sql {R} (cond : string) (df : DataFrame R) : result (DataFrame R) :=
  match split_neq cond with
  | None => Err (AnalysisException ("cannot parse " +:+ cond))
  | Some (l, r) =>
      f ← resolve df (parse_operand l);
      g ← resolve df (parse_operand r);
      Ok (filter_by (fun row => sql_neq (f row) (g row)) df)
  end.

(** [df.select(names)] keeps the named columns, in the order asked. *)
Fixpoint select_schema {R} (sch : list (string * (R -> value))) (names : list string)
  : result (list (string * (R -> value))) :=
  match names with
  | [] => Ok []
  | n :: names' =>
      match lookup_col sch n with
      | None => Err (AnalysisException ("cannot resolve " +:+ n))
      | Some f => rest ← select_schema sch names'; Ok ((n, f) :: rest)
      end
  end.

Definition select {R} (names : list string) (df : DataFrame R) : result (DataFrame R) :=
  sch ← select_schema (schema df) names; Ok (mkDF sch (rows df)).

(** [df.select(..., col(name).alias(alias), ...)] *)
Fixpoint select_as_schema {R} (sch : list (string * (R -> value)))
    (names : list (string * string)) : result (list (string * (R -> value))) :=
  match names with
  | [] => Ok []
  | (n, a) :: names' =>
      match lookup_col sch n with
      | None => Err (AnalysisException ("cannot resolve " +:+ n))
      | Some f => rest ← select_as_schema sch names'; Ok ((a, f) :: rest)
      end
  end.

Definition select_as {R} (names : list (string * string)) (df : DataFrame R)
  : result (DataFrame R) :=
  sch ← select_as_schema (schema df) names; Ok (mkDF sch (rows df)).

(** Reading a variable of the notebook: a name no cell has bound raises. *)
Fixpoint lookup_name {A} (bound : list (string * A)) (name : string) : result A :=
  match bound with
  | [] => Err (NameError name)
  | (n, v) :: bound' => if str_eqb n name then Ok v else lookup_name bound' name
  end.

(** [x = expr] in a cell: when [expr] raises, [x] keeps the value it had. *)
Definition assign {A} (old : A) (expr : result A) : A :=
  match expr with Ok new => new | Err _ => old end.

(** The cells of one row, and of the frame, as the schema shows them. *)
Definition cells {R} (sch : list (string * (R -> value))) (r : R) : list value :=
  map (fun nf => nf.2 r) sch.

Definition collect {R} (df : DataFrame R) : list (list value) :=
  map (cells (schema df)) (rows df).

(** Descending order of an integer column; NULL sorts last. *)
Definition desc_key (v : value) : Z :=
  match v with VInt n => n | _ => (-1)%Z end.

Fixpoint insert_desc {R} (key : R -> Z) (x : R) (l : list R) : list R :=
  match l with
  | [] => [x]
  | y :: l' => if (key y <? key x)%Z then x :: l else y :: insert_desc key x l'
  end.

Definition sort_rows_desc {R} (key : R -> Z) (l : list R) : list R :=
  foldr (insert_desc key) [] l.

(** [df.sort(name, ascending=False)] *)
Definition sort_desc {R} (name : string) (df : DataFrame R) : result (DataFrame R) :=
  match lookup_col (schema df) name with
  | None => Err (AnalysisException ("cannot resolve " +:+ name))
  | Some f => Ok (mkDF (schema df) (sort_rows_desc (fun r => desc_key (f r)) (rows df)))
  end.

(** [l.join(r, cond, 'inner')] and [l.join(r, cond, 'left_outer')] on the
    rows: a pair of rows is joined when the condition is TRUE; the outer
    join keeps an unmatched left row once, with no right row. *)
Definition matches {A B} (cond : A -> B -> tri) (a : A) (r : list B) : list B :=
  List.filter (fun b => holds (cond a b)) r.

Definition inner_join {A B} (cond : A -> B -> tri) (l : list A) (r : list B)
  : list (A * B) :=
  flat_map (fun a => map (pair a) (matches cond a r)) l.

Definition left_outer_join {A B} (cond : A -> B -> tri) (l : list A) (r : list B)
  : list (A * option B) :=
  flat_map (fun a =>
              match matches cond a r with
              | [] => [(a, None)]
              | ms => map (fun b => (a, Some b)) ms
              end) l.

(** The columns of a joined frame: the left ones, then the right ones,
    which are NULL on a row without a right side. *)
Definition outer_schema {A B}
    (ls : list (string * (A -> value))) (rs : list (string * (B -> value)))
  : list (string * (A * option B -> value)) :=
  map (fun nf => (nf.1, fun ab : A * option B => nf.2 ab.1)) ls ++
  map (fun nf => (nf.1, fun ab : A * option B =>
                          match ab.2 with Some b => nf.2 b | None => VNull end)) rs.

(** [groupBy(keys).count()]: one row per distinct key, with the number of
    rows that carry it. *)
Fixpoint bump {K} `{EqDecision K} (k : K) (acc : list (K * Z)) : list (K * Z) :=
  match acc with
  | [] => [(k, 1%Z)]
  | (k', n) :: acc' =>
      if decide (k = k') then (k', (n + 1)%Z) :: acc' else (k', n) :: bump k acc'
  end.

Definition group_count {K} `{EqDecision K} (keys : list K) : list (K * Z) :=
  foldr bump [] keys.

(** How many rows carry the key [k]. *)
Definition occurrences {K} `{EqDecision K} (k : K) (keys : list K) : nat :=
  length (List.filter (fun x => bool_decide (x = k)) keys).

(** [df.filter(obj)] where [obj] is a Python value: only strings are SQL text. *)
Definition filter_py {R} (cond : Py.pyval) (df : DataFrame R) : result (DataFrame R) :=
  match cond with
  | Py.PyStr s => filter_sql s df
  | _ => Err TypeError
  end.

End Frame.

(** ** The notebook's cells *)

Module Pipeline.
Import Sql Frame.

(** [lower(col(..))] and [regexp_replace(..)] on a nullable column. *)
Definition lower_col `{Lower} (o : option string) : option string := lower <$> o.

Definition regexp_replace_col (o : option string) (pat rep : string) : option string :=
  (fun s => Text.regexp_replace s pat rep) <$> o.

(** *** Serials (lines 83-93) *)

Record SerialDoc := {
  source_id : option string;
  dc_title : option string;
  prism_issn : option string;
  prism_eIssn : option string;
  openaccess : option string;
  prism_aggregationType : option string
}.

Record SerialRow := {
  serial_id : option string;
  serial : option string;
  serial_issn : option string;
  serial_eissn : option string;
  open_access : option string;
  serial_lc : option string
}.

Definition serial_schema : list (string * (SerialRow -> value)) :=
  [("serial_id", of_str ∘ serial_id); ("serial", of_str ∘ serial);
   ("serial_issn", of_str ∘ serial_issn); ("serial_eissn", of_str ∘ serial_eissn);
   ("open_access", of_str ∘ open_access); ("serial_lc", of_str ∘ serial_lc)].

Definition serial_df `{Lower} (docs : list SerialDoc) : DataFrame SerialRow :=
  mkDF serial_schema
    (map (fun d => {| serial_id := source_id d; serial := dc_title d;
                      serial_issn := prism_issn d; serial_eissn := prism_eIssn d;
                      open_access := openaccess d;
                      serial_lc := lower_col (dc_title d) |})
         (List.filter
            (fun d => holds (sql_eq (of_str (prism_aggregationType d)) (VStr "journal")))
            docs)).

(** *** Reference extractor (lines 198-207)

    The input is the frame after [explode] and the [select] of line 200:
    one row per reference, [tmp.first] being its source title and
    [tmp.second] its work title, NULL when Scopus has none. *)

Record RefPair := {
  tmp_first : option string;
  tmp_second : option string
}.

Record RefRow := {
  ref_journal : option string;
  ref_title : option string;
  ref_journal_lc : option string;
  ref_title_lc : option string
}.

Definition ref_schema : list (string * (RefRow -> value)) :=
  [("ref_journal", of_str ∘ ref_journal); ("ref_title", of_str ∘ ref_title);
   ("ref_journal_lc", of_str ∘ ref_journal_lc); ("ref_title_lc", of_str ∘ ref_title_lc)].

(** Lines 200-204: the casts to string leave strings alone. *)
Definition with_lc `{Lower} (p : RefPair) : RefRow :=
  {| ref_journal := tmp_first p; ref_title := tmp_second p;
     ref_journal_lc := lower_col (tmp_first p);
     ref_title_lc := lower_col (tmp_second p) |}.

(** The argument of the filter of line 206, as Python evaluates it. *)
Definition cond_206 : Py.pyval :=
  Py.py_and
    (Py.py_and (Py.PyStr "ref_journal_lc!='null'") (Py.PyStr "ref_title_lc!='null'"))
    (Py.PyStr "ref_journal_lc!=ref_title_lc").

(** A title with its lower-cased form: the rows that are counted. *)
Record TitleRow := {
  journal : option string;
  journal_lc : option string
}.

Definition title_schema (raw lc : string) : list (string * (TitleRow -> value)) :=
  [(raw, of_str ∘ journal); (lc, of_str ∘ journal_lc)].

(** Line 207: [select('ref_journal', 'ref_journal_lc')]. *)
Definition select_207 (r : RefRow) : TitleRow :=
  {| journal := ref_journal r; journal_lc := ref_journal_lc r |}.

Definition extract `{Lower} (pairs : list RefPair) : result (DataFrame TitleRow) :=
  df ← filter_py cond_206 (mkDF ref_schema (map with_lc pairs));
  filter_sql "ref_journal_lc!='null'"
    (mkDF (title_schema "ref_journal" "ref_journal_lc") (map select_207 (rows df))).

(** What the two filters of lines 206-207 let through (see
    [extract_rows] below). *)
Definition kept `{Lower} (r : RefRow) : bool :=
  holds (sql_neq (of_str (ref_journal_lc r)) (of_str (ref_title_lc r))) &&
  holds (sql_neq (of_str (ref_journal_lc r)) (VStr "null")).

(** *** Tally (line 276, and line 616 for the publications) *)

Record TallyRow := {
  t_journal : option string;
  t_journal_lc : option string;
  t_count : Z
}.

Definition tally_schema (raw lc : string) : list (string * (TallyRow -> value)) :=
  [(raw, of_str ∘ t_journal); (lc, of_str ∘ t_journal_lc); ("count", VInt ∘ t_count)].

Definition groupBy_count (raw lc : string) (df : DataFrame TitleRow) : DataFrame TallyRow :=
  mkDF (tally_schema raw lc)
    (map (fun kn : (option string * option string) * Z =>
            {| t_journal := kn.1.1; t_journal_lc := kn.1.2; t_count := kn.2 |})
         (group_count (map (fun r => (journal r, journal_lc r)) (rows df)))).

(** *** Stage 1: tally joined with the serials (lines 294 and 338-340;
    634 and 678 for the publications) *)

(** A row of the join: the tally's columns and the serial's. *)
Record Stage1Row := {
  s_serial_id : option string;
  s_journal : option string;
  s_journal_lc : option string;
  s_issn : option string;
  s_eissn : option string;
  s_open_access : option string;
  s_count : Z;
  s_serial : option string;
  s_serial_lc : option string
}.

(** The nine columns of the frame of lines 294 and 634. *)
Definition joined_schema (raw lc : string) : list (string * (Stage1Row -> value)) :=
  [(raw, of_str ∘ s_journal); (lc, of_str ∘ s_journal_lc); ("count", VInt ∘ s_count);
   ("serial_id", of_str ∘ s_serial_id); ("serial", of_str ∘ s_serial);
   ("serial_issn", of_str ∘ s_issn); ("serial_eissn", of_str ∘ s_eissn);
   ("open_access", of_str ∘ s_open_access); ("serial_lc", of_str ∘ s_serial_lc)].

(** The seven columns that the selects of lines 338-340 and 678 name. *)
Definition stage1_schema (raw lc cnt : string) : list (string * (Stage1Row -> value)) :=
  [("serial_id", of_str ∘ s_serial_id); (raw, of_str ∘ s_journal);
   (lc, of_str ∘ s_journal_lc); ("serial_issn", of_str ∘ s_issn);
   ("serial_eissn", of_str ∘ s_eissn); ("open_access", of_str ∘ s_open_access);
   (cnt, VInt ∘ s_count)].

(** [tally.journal_lc == serial_df.serial_lc] *)
Definition serial_cond (t : TallyRow) (s : SerialRow) : tri :=
  sql_eq (of_str (t_journal_lc t)) (of_str (serial_lc s)).

Definition select_stage1 (ts : TallyRow * SerialRow) : Stage1Row :=
  {| s_serial_id := serial_id ts.2; s_journal := t_journal ts.1;
     s_journal_lc := t_journal_lc ts.1; s_issn := serial_issn ts.2;
     s_eissn := serial_eissn ts.2; s_open_access := open_access ts.2;
     s_count := t_count ts.1; s_serial := serial ts.2;
     s_serial_lc := serial_lc ts.2 |}.

(** Lines 294 and 634. *)
Definition join_serial (raw lc : string)
    (tally : DataFrame TallyRow) (serials : DataFrame SerialRow) : DataFrame Stage1Row :=
  mkDF (joined_schema raw lc)
    (map select_stage1 (inner_join serial_cond (rows tally) (rows serials))).

(** Lines 338-340.  The receiver of the [select] is spelled
    [ref_jourfffnal_df], a name that no cell binds: reading it raises, and
    nothing is selected. *)
Definition line_338 (ref_journal_df : DataFrame Stage1Row) : result (DataFrame Stage1Row) :=
  df ← lookup_name [("ref_journal_df", ref_journal_df)] "ref_jourfffnal_df";
  select_as [("serial_id", "serial_id"); ("ref_journal", "ref_journal");
             ("ref_journal_lc", "ref_journal_lc"); ("serial_issn", "serial_issn");
             ("serial_eissn", "serial_eissn"); ("open_access", "open_access");
             ("count", "cite_count")] df.

(** Line 678. *)
Definition line_678 (journal_df : DataFrame Stage1Row) : result (DataFrame Stage1Row) :=
  select ["serial_id"; "journal"; "journal_lc"; "serial_issn"; "serial_eissn";
          "open_access"; "count"] journal_df.

(** *** Subscriptions (lines 378-391) *)

Record SsRow := {
  Title : option string;
  ISSN : option string;
  eISSN : option string
}.

#[global] Instance SsRow_eq_dec : EqDecision SsRow.
Proof. solve_decision. Defined.

Definition ss_schema : list (string * (SsRow -> value)) :=
  [("Title", of_str ∘ Title); ("ISSN", of_str ∘ ISSN); ("eISSN", of_str ∘ eISSN)].

(** Line 381: the alias given to a header of the export,
    [column.replace(' ', '_').replace('-', '_')]. *)
Definition sanitize_header (column : string) : string :=
  Py.str_replace (Py.str_replace column " " "_") "-" "_".

(** Lines 385-386 on one row of the export. *)
Definition ss_title `{Lower} (r : SsRow) : SsRow :=
  {| Title := regexp_replace_col (lower_col (Title r)) " & " " and ";
     ISSN := ISSN r; eISSN := eISSN r |}.

(** Line 390: [dropDuplicates()] keeps one copy of each row. *)
Definition ss_df `{Lower} (csv : list SsRow) : DataFrame SsRow :=
  mkDF ss_schema (remove_dups (map ss_title csv)).

(** *** Stage 2: the subscription join (lines 425-441 and 696-698) *)

Definition subscription_cond (r : Stage1Row) (s : SsRow) : tri :=
  sql_or
    (sql_or
       (sql_eq (of_str (s_journal_lc r)) (of_str (Title s)))
       (sql_and
          (sql_neq (of_str (s_issn r)) (VStr "null"))
          (sql_or (sql_eq (of_str (s_issn r)) (of_str (ISSN s)))
                  (sql_eq (of_str (s_issn r)) (of_str (eISSN s))))))
    (sql_and
       (sql_neq (of_str (s_eissn r)) (VStr "null"))
       (sql_or (sql_eq (of_str (s_eissn r)) (of_str (eISSN s)))
               (sql_eq (of_str (s_eissn r)) (of_str (ISSN s))))).

Definition join_ss (stage1 : DataFrame Stage1Row) (ss : DataFrame SsRow)
  : DataFrame (Stage1Row * option SsRow) :=
  mkDF (outer_schema (schema stage1) (schema ss))
    (left_outer_join subscription_cond (rows stage1) (rows ss)).

(** *** Reports (lines 516-518 and 792-794): rows without a subscription
    title, six columns, highest count first.  The cell prints the first 25
    rows of this frame. *)

Definition not_subscribed {R} (df : DataFrame R) (cols : list string) (by_col : string)
  : result (DataFrame R) :=
  title ← getattr df "Title";
  sel ← select cols (filter_by (fun r => Some (isNull (title r))) df);
  sort_desc by_col sel.

(** *** The reference analysis, cell by cell *)

(** The frame bound to [ref_journal_df] by line 276: the tally. *)
Definition ref_tally `{Lower} (pairs : list RefPair) : result (DataFrame TallyRow) :=
  cited ← extract pairs;
  Ok (groupBy_count "ref_journal" "ref_journal_lc" cited).

(** The frame bound to [ref_journal_df] after lines 294 and 338-340: the
    assignment of line 338 raises, so the name keeps the frame of line 294. *)
Definition ref_journal_df `{Lower} (pairs : list RefPair) (serials : list SerialDoc)
  : result (DataFrame Stage1Row) :=
  tally ← ref_tally pairs;
  let joined := join_serial "ref_journal" "ref_journal_lc" tally (serial_df serials) in
  Ok (assign joined (line_338 joined)).

(** Line 425 binds the join to a new name, [ref_journals]. *)
Definition ref_journals `{Lower} (ref_journal_df : DataFrame Stage1Row) (csv : list SsRow)
  : DataFrame (Stage1Row * option SsRow) :=
  join_ss ref_journal_df (ss_df csv).

(** Lines 516-518 read [ref_journal_df], the frame of the serial join. *)
Definition cited_not_subscribed (ref_journal_df : DataFrame Stage1Row)
  : result (DataFrame Stage1Row) :=
  not_subscribed ref_journal_df
    ["serial_id"; "ref_journal"; "serial_issn"; "serial_eissn"; "open_access"; "cite_count"]
    "cite_count".

(** *** The publication analysis *)

Record Document := {
  aggregationType : option string;
  doc_source_id : option string;
  publicationName : option string
}.

(** Lines 542-547. *)
Definition journal_titles `{Lower} (docs : list Document) : DataFrame TitleRow :=
  mkDF (title_schema "journal" "journal_lc")
    (map (fun d => {| journal := publicationName d;
                      journal_lc := lower_col (publicationName d) |})
         (List.filter
            (fun d => holds (sql_eq (of_str (aggregationType d)) (VStr "Journal")))
            docs)).

(** Lines 616-678: [journal_df] after the tally, its sort, the serial join
    and the select. *)
Definition journal_stage1 `{Lower} (docs : list Document) (serials : list SerialDoc)
  : result (DataFrame Stage1Row) :=
  tally ← sort_desc "count" (groupBy_count "journal" "journal_lc" (journal_titles docs));
  line_678 (join_serial "journal" "journal_lc" tally (serial_df serials)).

(** Line 696 rebinds [journal_df] itself to the subscription join. *)
Definition journal_df `{Lower} (docs : list Document) (serials : list SerialDoc) (csv : list SsRow)
  : result (DataFrame (Stage1Row * option SsRow)) :=
  stage1 ← journal_stage1 docs serials;
  Ok (join_ss stage1 (ss_df csv)).

(** Lines 792-794 read [journal_df], the joined frame. *)
Definition published_not_subscribed (journal_df : DataFrame (Stage1Row * option SsRow))
  : result (DataFrame (Stage1Row * option SsRow)) :=
  not_subscribed journal_df
    ["serial_id"; "journal"; "serial_issn"; "serial_eissn"; "open_access"; "count"]
    "count".

End Pipeline.

(** ** Persisted outputs (lines 452 and 735) *)

Module Store.
Import Sql Frame.

(** What a parquet path holds: column names and rows of cells. *)
Record Table := {
  table_columns : list string;
  table_rows : list (list value)
}.

Definition to_table {R} (df : DataFrame R) : Table :=
  {| table_columns := columns df; table_rows := collect df |}.

(** [df.write.format('parquet').save(path)]: no [mode] is given, so the
    writer's default applies, which raises when the path exists. *)
Definition save {R} (df : DataFrame R) (path : string) (files : gmap string Table)
  : result (gmap string Table) :=
  match files !! path with
  | Some _ => Err (AnalysisException ("path " +:+ path +:+ " already exists."))
  | None => Ok (<[path := to_table df]> files)
  end.

(** Lines 452 and 735. *)
Definition save_ref_journals (ref_journal_df : DataFrame Pipeline.Stage1Row)
    (files : gmap string Table) : result (gmap string Table) :=
  save ref_journal_df "../data/ref_journals.parquet" files.

Definition save_pub_journals
    (journal_df : DataFrame (Pipeline.Stage1Row * option Pipeline.SsRow))
    (files : gmap string Table) : result (gmap string Table) :=
  save journal_df "../data/pub_journals.parquet" files.

(** A cell that raises leaves the files as they were. *)
Definition run_cell (cell : gmap string Table -> result (gmap string Table))
    (files : gmap string Table) : gmap string Table * option error :=
  match cell files with
  | Ok files' => (files', None)
  | Err e => (files, Some e)
  end.

(** One run of the two persisting cells, in notebook order. *)
Definition persist (ref_journal_df : DataFrame Pipeline.Stage1Row)
    (journal_df : DataFrame (Pipeline.Stage1Row * option Pipeline.SsRow))
    (files : gmap string Table) : result (gmap string Table) :=
  files ← save_ref_journals ref_journal_df files;
  save_pub_journals journal_df files.

End Store.

(** ** The engine on ASCII text *)

(** [lower()] restricted to what it does on ASCII strings: the engine of
    the worked examples, whose titles are ASCII. *)
Definition ascii_engine : Lower := Text.ascii_lower.

(** ** Abbreviations and tactics used below *)

Import Text Sql Py Frame Pipeline Store.

(** The replacement of line 386, and [" & "] and [" and "] in front of a
    string. *)
Abbreviation amp s := (regexp_replace s " & " " and ").
Abbreviation pat_then t := (String " " (String "&" (String " " t))).
Abbreviation rep_then t :=
  (String " " (String "a" (String "n" (String "d" (String " " t))))).

Ltac split_andb :=
  repeat match goal with
         | H : _ && _ = true |- _ => apply andb_true_iff in H as [? ?]
         end;
  repeat (apply andb_true_iff; split); try done.

(** * Properties *)

(** ** Text *)

Section TextFacts.

Lemma lower_char_idem c : lower_char (lower_char c) = lower_char c.
Proof. destruct c as [[] [] [] [] [] [] [] []]; reflexivity. Qed.

Lemma lower_idem s : ascii_lower (ascii_lower s) = ascii_lower s.
Proof. induction s as [|c s IH]; simpl; [done|]. by rewrite lower_char_idem, IH. Qed.

Lemma lower_char_swap_case c : lower_char (swap_case c) = lower_char c.
Proof. destruct c as [[] [] [] [] [] [] [] []]; reflexivity. Qed.

Lemma differ_only_in_case_lower x y :
  differ_only_in_case x y = true -> ascii_lower x = ascii_lower y.
Proof.
  revert y; induction x as [|a x IH]; intros [|b y]; simpl; try done.
  intros [Hc Hr]%andb_true_iff. rewrite (IH _ Hr). f_equal.
  apply orb_true_iff in Hc as [->%Ascii.eqb_eq | <-%Ascii.eqb_eq]; [done|].
  by rewrite lower_char_swap_case.
Qed.

(** Lower-casing moves no character onto a blank or an ampersand. *)
Lemma eqb_space_lower c : Ascii.eqb " " (lower_char c) = Ascii.eqb " " c.
Proof. destruct c as [[] [] [] [] [] [] [] []]; reflexivity. Qed.

Lemma eqb_amp_lower c : Ascii.eqb "&" (lower_char c) = Ascii.eqb "&" c.
Proof. destruct c as [[] [] [] [] [] [] [] []]; reflexivity. Qed.

End TextFacts.

(** ** Replacing [" & "] by [" and "] *)

Lemma amp_match t : amp (pat_then t) = rep_then (amp t).
Proof. reflexivity. Qed.

Lemma amp_skip c t :
  starts_with " & " (String c t) = false -> amp (String c t) = String c (amp t).
Proof. intros H. unfold regexp_replace. cbn [replace_from]. by rewrite H. Qed.

Lemma starts_with_amp_inv s :
  starts_with " & " s = true -> exists t, s = pat_then t.
Proof.
  destruct s as [|a [|b [|c t]]]; cbn [starts_with];
    rewrite ?andb_false_r, ?andb_true_r; try done.
  intros [<-%Ascii.eqb_eq [<-%Ascii.eqb_eq <-%Ascii.eqb_eq]%andb_true_iff]%andb_true_iff.
  by exists t.
Qed.

(** The recursion of the replacement, as an induction principle. *)
Lemma amp_ind (Q : string -> Prop) :
  Q "" ->
  (forall t, Q t -> Q (pat_then t)) ->
  (forall c t, starts_with " & " (String c t) = false -> Q t -> Q (String c t)) ->
  forall s, Q s.
Proof.
  intros H0 Hm Hs s.
  remember (String.length s) as n eqn:Hn.
  revert s Hn. induction n as [n IH] using lt_wf_ind. intros s Hn.
  destruct s as [|c t]; [done|].
  destruct (starts_with " & " (String c t)) eqn:Hp.
  - destruct (starts_with_amp_inv _ Hp) as [u Hu]. rewrite Hu. apply Hm.
    apply (IH (String.length u)); [|done].
    rewrite Hn, Hu. simpl. lia.
  - apply Hs; [done|]. apply (IH (String.length t)); [|done]. rewrite Hn. simpl. lia.
Qed.

(** The replacement commutes with ascii_lower-casing. *)
Lemma starts_with_amp_lower s :
  starts_with " & " (ascii_lower s) = starts_with " & " s.
Proof.
  destruct s as [|a [|b [|c t]]]; cbn [starts_with ascii_lower];
    by rewrite ?eqb_space_lower, ?eqb_amp_lower.
Qed.

Lemma lower_amp s : ascii_lower (amp s) = amp (ascii_lower s).
Proof.
  induction s as [|t IH|c t Hp IH] using amp_ind; [done| |].
  - rewrite amp_match. cbn [ascii_lower]. rewrite IH. reflexivity.
  - rewrite (amp_skip _ _ Hp). cbn [ascii_lower]. rewrite IH.
    symmetry. apply amp_skip.
    change (String (lower_char c) (ascii_lower t)) with (ascii_lower (String c t)).
    by rewrite starts_with_amp_lower.
Qed.

(** Without an occurrence the replacement changes nothing; with one the
    result is longer. *)
Lemma amp_no_occurrence s : contains " & " s = false -> amp s = s.
Proof.
  induction s as [|c t IH]; [done|].
  cbn [contains]. intros [Hp Hc]%orb_false_iff.
  rewrite (amp_skip _ _ Hp). by rewrite IH.
Qed.

Lemma amp_length_le s : String.length s <= String.length (amp s).
Proof.
  induction s as [|t IH|c t Hp IH] using amp_ind; [done| |].
  - rewrite amp_match. simpl. lia.
  - rewrite (amp_skip _ _ Hp). simpl. lia.
Qed.

Lemma amp_occurrence_longer s :
  contains " & " s = true -> String.length s < String.length (amp s).
Proof.
  induction s as [|t IH|c t Hp IH] using amp_ind; [done| |].
  - intros _. rewrite amp_match. pose proof (amp_length_le t). simpl. lia.
  - cbn [contains]. rewrite Hp. cbn [orb]. intros Hc.
    rewrite (amp_skip _ _ Hp). simpl. specialize (IH Hc). lia.
Qed.

Lemma amp_fixed_iff s : amp s = s <-> contains " & " s = false.
Proof.
  split; [|apply amp_no_occurrence].
  intros Heq. destruct (contains " & " s) eqn:Hc; [|done].
  apply amp_occurrence_longer in Hc. rewrite Heq in Hc. lia.
Qed.

(** Where the result of the replacement still holds a [" & "]: exactly
    where the input had two ampersands one blank apart. *)
Lemma starts_with_amp_amp s :
  starts_with " & & " s = true -> starts_with " & " s = true.
Proof.
  destruct s as [|a [|b [|c s]]]; cbn [starts_with];
    rewrite ?andb_false_r; try done.
  intros H. split_andb.
Qed.

Lemma starts_with_amp_tail s :
  starts_with "& & " s = true -> starts_with "& " s = true.
Proof.
  destruct s as [|a [|b s]]; cbn [starts_with];
    rewrite ?andb_false_r; try done.
  intros H. split_andb.
Qed.

Lemma starts_with_cons a p b s :
  starts_with (String a p) (String b s) = Ascii.eqb a b && starts_with p s.
Proof. reflexivity. Qed.

Lemma amp_head_blank t : starts_with " " (amp t) = starts_with " " t.
Proof.
  destruct t as [|c t]; [done|].
  destruct (starts_with " & " (String c t)) eqn:Hp.
  - destruct (starts_with_amp_inv _ Hp) as [u ->]. reflexivity.
  - by rewrite (amp_skip _ _ Hp).
Qed.

Lemma amp_head_amp t : starts_with "& " (amp t) = starts_with "& " t.
Proof.
  destruct t as [|c t]; [done|].
  destruct (starts_with " & " (String c t)) eqn:Hp.
  - destruct (starts_with_amp_inv _ Hp) as [u ->]. reflexivity.
  - by rewrite (amp_skip _ _ Hp), !starts_with_cons, amp_head_blank.
Qed.

Lemma contains_rep_then X :
  contains " & " (rep_then X) = starts_with "& " X || contains " & " X.
Proof. reflexivity. Qed.

Lemma contains2_pat_then t :
  contains " & & " (pat_then t)
  = starts_with "& " t || (starts_with "& & " t || contains " & & " t).
Proof. reflexivity. Qed.

Lemma amp_leaves_occurrence s :
  contains " & " (amp s) = contains " & & " s.
Proof.
  induction s as [|t IH|c t Hp IH] using amp_ind; [done| |].
  - rewrite amp_match, contains_rep_then, contains2_pat_then, amp_head_amp, IH.
    destruct (starts_with "& " t) eqn:Ha; [done|].
    destruct (starts_with "& & " t) eqn:Hb; [|done].
    apply starts_with_amp_tail in Hb. congruence.
  - rewrite (amp_skip _ _ Hp). cbn [contains]. rewrite IH.
    replace (starts_with " & " (String c (amp t))) with false.
    + destruct (starts_with " & & " (String c t)) eqn:Hb; [|done].
      apply starts_with_amp_amp in Hb. congruence.
    + symmetry. rewrite starts_with_cons, amp_head_amp.
      by rewrite starts_with_cons in Hp.
Qed.

Lemma contains2_lower s : contains " & & " (ascii_lower s) = contains " & & " s.
Proof.
  assert (Hp : forall u, starts_with " & & " (ascii_lower u) = starts_with " & & " u).
  { intros [|a [|b [|c [|d [|e u]]]]]; cbn [starts_with ascii_lower];
      by rewrite ?eqb_space_lower, ?eqb_amp_lower. }
  induction s as [|c s IH]; [done|].
  change (ascii_lower (String c s)) with (String (lower_char c) (ascii_lower s)).
  cbn [contains]. rewrite IH. f_equal. apply (Hp (String c s)).
Qed.

(** The engine of the examples is one of those the laws allow. *)
Lemma ascii_laws : @LowerLaws ascii_engine.
Proof.
  split.
  - reflexivity.
  - apply lower_idem.
  - intros s Hs. unfold lower, ascii_engine in *. by rewrite lower_amp, Hs.
Qed.
(** ** Properties for every engine *)

Section Properties.
Context `{Lower}.

(** ** The reference extractor *)

Lemma cond_206_value : cond_206 = PyStr "ref_journal_lc!=ref_title_lc".
Proof. reflexivity. Qed.

(** The filter of line 206 compares the two lower-cased titles. *)
Lemma filter_206 (rs : list RefRow) :
  filter_py cond_206 (mkDF ref_schema rs) =
  Ok (filter_by (fun r => sql_neq (of_str (ref_journal_lc r)) (of_str (ref_title_lc r)))
        (mkDF ref_schema rs)).
Proof. reflexivity. Qed.

(** The filter of line 207 compares the lower-cased source title with the
    text [null]. *)
Lemma filter_207 (rs : list TitleRow) :
  filter_sql "ref_journal_lc!='null'" (mkDF (title_schema "ref_journal" "ref_journal_lc") rs) =
  Ok (filter_by (fun r => sql_neq (of_str (journal_lc r)) (VStr "null"))
        (mkDF (title_schema "ref_journal" "ref_journal_lc") rs)).
Proof. reflexivity. Qed.

Lemma filter_select_207 (P : option string -> bool) (Q : RefRow -> bool) rs :
  List.filter (fun r => P (journal_lc r)) (map select_207 (List.filter Q rs)) =
  map select_207 (List.filter (fun r => Q r && P (ref_journal_lc r)) rs).
Proof.
  induction rs as [|r rs IH]; [done|]. simpl.
  destruct (Q r); simpl; [|done].
  destruct (P (ref_journal_lc r)); simpl; by rewrite IH.
Qed.

Lemma extract_rows pairs :
  extract pairs =
  Ok (mkDF (title_schema "ref_journal" "ref_journal_lc")
        (map select_207 (List.filter kept (map with_lc pairs)))).
Proof.
  unfold extract. rewrite filter_206. cbn [mbind result_bind filter_by rows].
  rewrite filter_207. unfold filter_by. cbn [rows schema]. f_equal. f_equal.
  apply (filter_select_207
           (fun o => holds (sql_neq (of_str o) (VStr "null")))).
Qed.

Lemma kept_iff p :
  kept (with_lc p) = true <->
  exists j t, tmp_first p = Some j /\ tmp_second p = Some t /\
              lower j <> lower t /\ lower j <> "null".
Proof.
  destruct p as [[j|] [t|]]; unfold kept; simpl;
    try (split; [done | by intros (? & ? & ? & ? & ?)]).
  unfold str_eqb. split.
  - intros [H1 H2]%andb_true_iff. exists j, t.
    repeat case_bool_decide; done.
  - intros (? & ? & [= <-] & [= <-] & Hjt & Hn).
    by rewrite !bool_decide_eq_false_2.
Qed.

(** ** Grouping and counting *)

Section GroupCount.
Context {K : Type} `{EqDecision K}.

Lemma elem_of_bump_fst (k k' : K) acc :
  k' ∈ (bump k acc).*1 <-> k' = k \/ k' ∈ acc.*1.
Proof.
  induction acc as [|[k0 n0] acc IH]; simpl.
  - rewrite list_elem_of_singleton. split; [by left | intros [|[]%elem_of_nil]; done].
  - case_decide; simpl; rewrite !elem_of_cons, ?IH; naive_solver.
Qed.

Lemma NoDup_bump (k : K) acc : NoDup acc.*1 -> NoDup (bump k acc).*1.
Proof.
  induction acc as [|[k0 n0] acc IH]; simpl.
  - intros _. apply NoDup_singleton.
  - intros [Hk0 Hnd]%NoDup_cons. case_decide; simpl.
    + by apply NoDup_cons.
    + apply NoDup_cons. split; [|by apply IH].
      rewrite elem_of_bump_fst. intros [->|]; done.
Qed.

Lemma elem_of_bump_other (k k' : K) n' acc :
  k' <> k -> (k', n') ∈ bump k acc <-> (k', n') ∈ acc.
Proof.
  intros Hne. induction acc as [|[k0 n0] acc IH]; simpl.
  - rewrite list_elem_of_singleton. split; [|by intros ?%elem_of_nil].
    by intros [= -> ->].
  - case_decide; subst; rewrite !elem_of_cons; [|by rewrite IH].
    split; (intros [[= -> ->]|]; [done | by right]).
Qed.

Lemma elem_of_bump_same (k : K) n' acc :
  NoDup acc.*1 ->
  (k, n') ∈ bump k acc <->
  (exists n, (k, n) ∈ acc /\ n' = (n + 1)%Z) \/ ((k ∉ acc.*1) /\ n' = 1%Z).
Proof.
  induction acc as [|[k0 n0] acc IH]; simpl.
  - intros _. rewrite list_elem_of_singleton. split.
    + intros [= ->]. right. split; [apply not_elem_of_nil | done].
    + intros [(n & []%elem_of_nil & _) | [_ ->]]. done.
  - intros [Hk0 Hnd]%NoDup_cons. case_decide as Hk; subst.
    + rewrite elem_of_cons. split.
      * intros [[= ->] | Hin].
        -- left. exists n0. split; [left | done].
        -- exfalso. apply Hk0. apply list_elem_of_fmap. by exists (k0, n').
      * intros [(n & Hin & ->) | [Hnot _]].
        -- apply elem_of_cons in Hin as [[= ->] | Hin]; [by left|].
           exfalso. apply Hk0. apply list_elem_of_fmap. by exists (k0, n).
        -- exfalso. apply Hnot. left.
    + rewrite elem_of_cons, (IH Hnd). split.
      * intros [[= ? ?] | [(n & Hin & ->) | [Hnot ->]]]; [done | |].
        -- left. exists n. split; [by right | done].
        -- right. split; [|done]. rewrite not_elem_of_cons. done.
      * intros [(n & Hin & ->) | [Hnot ->]].
        -- apply elem_of_cons in Hin as [[= ? ?] | Hin]; [done|].
           right. left. by exists n.
        -- right. right. apply not_elem_of_cons in Hnot as [_ Hnot]. done.
Qed.

Lemma group_count_NoDup (keys : list K) : NoDup (group_count keys).*1.
Proof.
  induction keys as [|k keys IH]; simpl; [apply NoDup_nil_2 | by apply NoDup_bump].
Qed.

Lemma group_count_keys (k : K) (keys : list K) :
  k ∈ (group_count keys).*1 <-> k ∈ keys.
Proof.
  induction keys as [|k0 keys IH]; simpl; [done|].
  rewrite elem_of_bump_fst, IH, elem_of_cons. done.
Qed.

Lemma occ_not_elem (k : K) (keys : list K) : k ∉ keys -> occurrences k keys = 0.
Proof.
  unfold occurrences. induction keys as [|k0 keys IH]; [done|].
  intros [Hne Hnot]%not_elem_of_cons. cbn [List.filter].
  rewrite bool_decide_eq_false_2 by done. by apply IH.
Qed.

(** One row per key that occurs, holding the number of its occurrences. *)
Lemma group_count_spec (k : K) (n : Z) (keys : list K) :
  (k, n) ∈ group_count keys <-> k ∈ keys /\ n = Z.of_nat (occurrences k keys).
Proof.
  revert n. induction keys as [|k0 keys IH]; intros n.
  - simpl. split; [by intros ?%elem_of_nil | by intros [?%elem_of_nil _]].
  - cbn [group_count foldr]. fold (group_count keys).
    destruct (decide (k = k0)) as [->|Hne].
    + rewrite elem_of_bump_same by apply group_count_NoDup.
      assert (Hocc : occurrences k0 (k0 :: keys) = S (occurrences k0 keys)).
      { unfold occurrences. cbn [List.filter]. by rewrite bool_decide_eq_true_2. }
      rewrite Hocc. split.
      * intros [(m & Hm & ->) | [Hnot ->]].
        -- apply IH in Hm as [_ ->]. split; [left | lia].
        -- split; [left|]. rewrite group_count_keys in Hnot.
           rewrite (occ_not_elem _ _ Hnot). done.
      * intros [_ ->]. destruct (decide (k0 ∈ keys)) as [Hin|Hnot].
        -- left. exists (Z.of_nat (occurrences k0 keys)). split; [by apply IH | lia].
        -- right. rewrite group_count_keys, (occ_not_elem _ _ Hnot). done.
    + rewrite elem_of_bump_other by done. rewrite IH, elem_of_cons.
      assert (Hocc : occurrences k (k0 :: keys) = occurrences k keys).
      { unfold occurrences. cbn [List.filter]. rewrite bool_decide_eq_false_2; [done|].
        by intros ->. }
      rewrite Hocc. naive_solver.
Qed.

End GroupCount.

(** ** Joins *)

Section Joins.
Context {A B : Type} (cond : A -> B -> tri).

Lemma elem_of_matches a b r :
  b ∈ matches cond a r <-> b ∈ r /\ holds (cond a b) = true.
Proof. unfold matches. rewrite !list_elem_of_In. apply filter_In. Qed.

Lemma matches_nil a r :
  matches cond a r = [] <-> forall b, b ∈ r -> holds (cond a b) = false.
Proof.
  split.
  - intros Hnil b Hb. destruct (holds (cond a b)) eqn:E; [|done].
    assert (Hin : b ∈ matches cond a r) by by apply elem_of_matches.
    rewrite Hnil in Hin. by apply elem_of_nil in Hin.
  - intros Hall. destruct (matches cond a r) as [|b ms] eqn:E; [done|].
    assert (Hin : b ∈ matches cond a r) by (rewrite E; left).
    apply elem_of_matches in Hin as [Hb Hc]. rewrite (Hall b Hb) in Hc. done.
Qed.

(** An inner join holds the pairs that satisfy the condition, nothing else. *)
Lemma elem_of_inner_join a b l r :
  (a, b) ∈ inner_join cond l r <-> a ∈ l /\ b ∈ r /\ holds (cond a b) = true.
Proof.
  unfold inner_join. rewrite list_elem_of_In, in_flat_map. split.
  - intros (a' & Ha & Hin). apply list_elem_of_In, list_elem_of_fmap in Hin
      as (b' & [= <- <-] & Hb). apply elem_of_matches in Hb as [? ?].
    by rewrite list_elem_of_In.
  - intros (Ha & Hb & Hc). exists a. split; [by apply list_elem_of_In|].
    apply list_elem_of_In, list_elem_of_fmap. exists b. split; [done|].
    by apply elem_of_matches.
Qed.

(** A left outer join holds the same pairs, and each left row without a
    match once, with no right row. *)
Lemma elem_of_left_outer_join a ob l r :
  (a, ob) ∈ left_outer_join cond l r <->
  a ∈ l /\
  match ob with
  | Some b => b ∈ r /\ holds (cond a b) = true
  | None => forall b, b ∈ r -> holds (cond a b) = false
  end.
Proof.
  unfold left_outer_join. rewrite list_elem_of_In, in_flat_map. split.
  - intros (a' & Ha & Hin). apply list_elem_of_In in Ha, Hin.
    destruct (matches cond a' r) as [|m ms] eqn:E.
    + apply list_elem_of_singleton in Hin as [= -> ->]. split; [done|].
      by apply matches_nil.
    + apply list_elem_of_fmap in Hin as (b & [= -> ->] & Hb). split; [done|].
      rewrite <- E in Hb. by apply elem_of_matches.
  - intros [Ha Hob]. exists a. split; [by apply list_elem_of_In|].
    apply list_elem_of_In. destruct ob as [b|].
    + assert (Hin : b ∈ matches cond a r) by by apply elem_of_matches.
      destruct (matches cond a r) as [|m ms] eqn:E; [by apply elem_of_nil in Hin|].
      apply list_elem_of_fmap. by exists b.
    + apply matches_nil in Hob. rewrite Hob. left.
Qed.

Lemma left_outer_join_total a l r :
  a ∈ l -> exists ob, (a, ob) ∈ left_outer_join cond l r.
Proof.
  intros Ha. destruct (matches cond a r) as [|b ms] eqn:E.
  - exists None. apply elem_of_left_outer_join. split; [done|]. by apply matches_nil.
  - exists (Some b). apply elem_of_left_outer_join. split; [done|].
    apply elem_of_matches. rewrite E. left.
Qed.

End Joins.

(** ** The subscription join condition *)

(** The guard of lines 428 and 435: an identifier takes part in a comparison
    when it is neither NULL nor the text [null]. *)
Lemma guard_holds (o : option string) :
  holds (sql_neq (of_str o) (VStr "null")) = true <->
  exists i, o = Some i /\ i <> "null".
Proof.
  destruct o as [i|]; simpl; [|split; [done | by intros (? & ? & _)]].
  unfold str_eqb. case_bool_decide; simpl.
  - split; [done | by intros (? & [= <-] & ?)].
  - split; [by exists i | done].
Qed.

Lemma sql_eq_holds (a b : option string) :
  holds (sql_eq (of_str a) (of_str b)) = true <-> exists t, a = Some t /\ b = Some t.
Proof.
  destruct a as [x|], b as [y|]; simpl;
    try (split; [done | by intros (? & ? & ?)]).
  unfold str_eqb. case_bool_decide; simpl.
  - subst. split; [by exists y | done].
  - split; [done | intros (? & [= <-] & [= <-]); done].
Qed.

Lemma holds_or (a b : tri) : holds (sql_or a b) = holds a || holds b.
Proof. by destruct a as [[]|], b as [[]|]. Qed.

Lemma holds_and (a b : tri) : holds (sql_and a b) = holds a && holds b.
Proof. by destruct a as [[]|], b as [[]|]. Qed.

Lemma subscription_cond_holds (r : Stage1Row) (s : SsRow) :
  holds (subscription_cond r s) = true <->
    (exists t, s_journal_lc r = Some t /\ Title s = Some t)
    \/ (exists i, s_issn r = Some i /\ i <> "null" /\
                  (ISSN s = Some i \/ eISSN s = Some i))
    \/ (exists e, s_eissn r = Some e /\ e <> "null" /\
                  (eISSN s = Some e \/ ISSN s = Some e)).
Proof.
  unfold subscription_cond.
  rewrite !holds_or, !holds_and, !holds_or, !orb_true_iff, !andb_true_iff,
    !orb_true_iff, !guard_holds, !sql_eq_holds.
  split.
  - intros [[Ht | [(i & Hi & Hn) Hm]] | [(e & He & Hn) Hm]].
    + by left.
    + right; left. exists i. rewrite Hi in Hm.
      destruct Hm as [(? & [= <-] & ?) | (? & [= <-] & ?)]; auto.
    + right; right. exists e. rewrite He in Hm.
      destruct Hm as [(? & [= <-] & ?) | (? & [= <-] & ?)]; auto.
  - intros [Ht | [(i & Hi & Hn & Hm) | (e & He & Hn & Hm)]].
    + left; by left.
    + left; right. split; [by exists i|]. destruct Hm; [left | right]; by exists i.
    + right. split; [by exists e|]. destruct Hm; [left | right]; by exists e.
Qed.

(** ** Rows of the reference frames *)

Lemma extract_rows_fmap pairs :
  rows <$> extract pairs = Ok (map select_207 (List.filter kept (map with_lc pairs))).
Proof. by rewrite extract_rows. Qed.

Lemma extract_app l1 l2 :
  map select_207 (List.filter kept (map with_lc (l1 ++ l2)%list)) =
  (map select_207 (List.filter kept (map with_lc l1)) ++
   map select_207 (List.filter kept (map with_lc l2)))%list.
Proof. by rewrite map_app, List.filter_app, map_app. Qed.

Lemma elem_of_extract pairs df r :
  extract pairs = Ok df ->
  r ∈ rows df <->
  exists p, p ∈ pairs /\ kept (with_lc p) = true /\ r = select_207 (with_lc p).
Proof.
  rewrite extract_rows. intros [= <-]. cbn [rows].
  rewrite list_elem_of_fmap. split.
  - intros (x & -> & Hx). apply list_elem_of_In, filter_In in Hx as [Hx Hk].
    apply list_elem_of_In, list_elem_of_fmap in Hx as (p & -> & Hp). by exists p.
  - intros (p & Hp & Hk & ->). exists (with_lc p). split; [done|].
    apply list_elem_of_In, filter_In. split; [|done].
    apply list_elem_of_In, list_elem_of_fmap. by exists p.
Qed.

(** A retained row carries a present source title whose lower-cased form is
    not the text [null]. *)
Lemma extract_row_inv pairs df r :
  extract pairs = Ok df -> r ∈ rows df ->
  exists j, journal r = Some j /\ journal_lc r = Some (lower j) /\ lower j <> "null".
Proof.
  intros He Hr. apply (elem_of_extract _ _ _ He) in Hr as (p & _ & Hk & ->).
  apply kept_iff in Hk as (j & t & Hj & Ht & _ & Hn).
  exists j. unfold select_207, with_lc; simpl. by rewrite Hj.
Qed.

Lemma elem_of_groupBy_count raw lc (df : DataFrame TitleRow) (t : TallyRow) :
  t ∈ rows (groupBy_count raw lc df) <->
  {| journal := t_journal t; journal_lc := t_journal_lc t |} ∈ rows df /\
  t_count t =
    Z.of_nat (length (List.filter
                        (fun r => bool_decide ((journal r, journal_lc r)
                                               = (t_journal t, t_journal_lc t)))
                        (rows df))).
Proof.
  unfold groupBy_count. cbn [rows]. rewrite list_elem_of_fmap.
  set (keys := map (fun r => (journal r, journal_lc r)) (rows df)).
  assert (Hlen : forall k,
    length (List.filter (fun x => bool_decide (x = k)) keys) =
    length (List.filter (fun r => bool_decide ((journal r, journal_lc r) = k)) (rows df))).
  { intros k. unfold keys. induction (rows df) as [|r rs IH]; [done|].
    cbn [map List.filter]. case_bool_decide; simpl; by rewrite IH. }
  assert (Hkey : forall k, k ∈ keys <->
    {| journal := k.1; journal_lc := k.2 |} ∈ rows df).
  { intros [a b]. unfold keys. rewrite list_elem_of_fmap. split.
    - intros ([a' b'] & [= -> ->] & Hin). done.
    - intros Hin. by exists {| journal := a; journal_lc := b |}. }
  split.
  - intros ([[a b] n] & -> & Hin). cbn.
    apply group_count_spec in Hin as [Hk ->]. split; [by apply (Hkey (a, b))|].
    unfold occurrences. by rewrite Hlen.
  - intros [Hin Hn]. destruct t as [a b n]. cbn in *.
    exists ((a, b), n). split; [done|].
    apply group_count_spec. split; [by apply (Hkey (a, b))|].
    unfold occurrences. by rewrite Hlen.
Qed.

Lemma elem_of_join_serial raw lc tally serials (r : Stage1Row) :
  r ∈ rows (join_serial raw lc tally serials) <->
  exists t s, t ∈ rows tally /\ s ∈ rows serials /\
              holds (serial_cond t s) = true /\ r = select_stage1 (t, s).
Proof.
  unfold join_serial. cbn [rows]. rewrite list_elem_of_fmap. split.
  - intros ([t s] & -> & Hin). apply elem_of_inner_join in Hin as (? & ? & ?).
    by exists t, s.
  - intros (t & s & Ht & Hs & Hc & ->). exists (t, s). split; [done|].
    by apply elem_of_inner_join.
Qed.

Lemma ref_tally_ok pairs :
  exists cited, extract pairs = Ok cited /\
                ref_tally pairs = Ok (groupBy_count "ref_journal" "ref_journal_lc" cited).
Proof. unfold ref_tally. rewrite extract_rows. by eexists. Qed.

Lemma ref_journal_df_ok pairs serials :
  exists tally, ref_tally pairs = Ok tally /\
    ref_journal_df pairs serials =
    Ok (join_serial "ref_journal" "ref_journal_lc" tally (serial_df serials)).
Proof.
  destruct (ref_tally_ok pairs) as (cited & _ & Ht).
  unfold ref_journal_df. rewrite Ht. by eexists.
Qed.

(** A pair that the filters reject leaves no trace in the extractor's output. *)
Lemma extract_dropped pre post p :
  kept (with_lc p) = false ->
  rows <$> extract (pre ++ p :: post) = rows <$> extract (pre ++ post).
Proof.
  intros Hk. rewrite !extract_rows_fmap, !extract_app. cbn [map List.filter].
  by rewrite Hk.
Qed.

Lemma extract_kept pre post p :
  kept (with_lc p) = true ->
  rows <$> extract (pre ++ p :: post) =
  Ok (map select_207 (List.filter kept (map with_lc pre)) ++
      select_207 (with_lc p) ::
      map select_207 (List.filter kept (map with_lc post)))%list.
Proof.
  intros Hk. rewrite !extract_rows_fmap, !extract_app. cbn [map List.filter].
  by rewrite Hk.
Qed.

(** Titles through the reference frames: a raw title that lower-cases to
    [null] is in none of them. *)
Lemma tally_row_inv pairs tally t :
  ref_tally pairs = Ok tally -> t ∈ rows tally ->
  exists j, t_journal t = Some j /\ t_journal_lc t = Some (lower j) /\ lower j <> "null".
Proof.
  destruct (ref_tally_ok pairs) as (cited & He & Ht). rewrite Ht. intros [= <-] Hin.
  apply elem_of_groupBy_count in Hin as [Hin _].
  by apply (extract_row_inv _ _ _ He) in Hin.
Qed.

Lemma stage1_row_inv pairs serials stage1 r :
  ref_journal_df pairs serials = Ok stage1 -> r ∈ rows stage1 ->
  exists j, s_journal r = Some j /\ s_journal_lc r = Some (lower j) /\ lower j <> "null".
Proof.
  destruct (ref_journal_df_ok pairs serials) as (tally & Ht & Hs). rewrite Hs.
  intros [= <-] Hin. apply elem_of_join_serial in Hin as (t & s & Hin & _ & _ & ->).
  by apply (tally_row_inv _ _ _ Ht) in Hin.
Qed.
(** C10, amended.  A source title that is a present string lower-casing to
    [null] fails the test of line 207 like a NULL does: the pair is
    discarded, the extractor's output is the one it has without the pair or
    with the source title absent, and that title is in no row of the
    reference tally, of its serial join or of its subscription join,
    whatever the input.  (The publication analysis has no such test.) *)
Theorem null_titled_source_discarded
    (pre post : list RefPair) (p : RefPair) (s : string) :
  tmp_first p = Some s -> lower s = "null" ->
  rows <$> extract (pre ++ p :: post) = rows <$> extract (pre ++ post) /\
  rows <$> extract (pre ++ p :: post) =
    rows <$> extract
      (pre ++ {| tmp_first := None; tmp_second := tmp_second p |} :: post) /\
  forall pairs serials csv,
    exists tally stage1,
      ref_tally pairs = Ok tally /\
      ref_journal_df pairs serials = Ok stage1 /\
      (forall t, t ∈ rows tally -> t_journal t <> Some s) /\
      (forall r, r ∈ rows stage1 -> s_journal r <> Some s) /\
      (forall m, m ∈ rows (ref_journals stage1 csv) -> s_journal m.1 <> Some s).
Proof.
  intros Hs Hnull.
  assert (Hk : kept (with_lc p) = false).
  { apply not_true_is_false. intros (j & t & Hj & _ & _ & Hn)%kept_iff.
    rewrite Hs in Hj. injection Hj as <-. done. }
  split; [by apply extract_dropped|]. split.
  { rewrite (extract_dropped _ _ _ Hk). symmetry. by apply extract_dropped. }
  intros pairs serials csv.
  destruct (ref_journal_df_ok pairs serials) as (tally & Ht & Hdf).
  eexists tally, _. split; [done|]. split; [exact Hdf|].
  assert (H1 : forall r,
    r ∈ rows (join_serial "ref_journal" "ref_journal_lc"
                tally (serial_df serials)) -> s_journal r <> Some s).
  { intros r Hr E. apply (stage1_row_inv _ _ _ _ Hdf) in Hr as (j & Hj & _ & Hn).
    rewrite E in Hj. injection Hj as <-. done. }
  split; [|split; [exact H1|]].
  - intros t Hin E. apply (tally_row_inv _ _ _ Ht) in Hin as (j & Hj & _ & Hn).
    rewrite E in Hj. injection Hj as <-. done.
  - intros [r ob] Hin. unfold ref_journals, join_ss in Hin. cbn [rows] in Hin.
    apply elem_of_left_outer_join in Hin as [Hr _]. by apply H1.
Qed.

Lemma filter_length_pos {X} (P : X -> bool) (x : X) (l : list X) :
  x ∈ l -> P x = true -> 0 < length (List.filter P l).
Proof.
  intros Hin HP. assert (Hx : x ∈ List.filter P l).
  { apply list_elem_of_In, filter_In. split; [by apply list_elem_of_In | done]. }
  destruct (List.filter P l); [by apply elem_of_nil in Hx | simpl; lia].
Qed.

(** Every retained row is counted in the tally row of its own title. *)
Lemma tally_row_of_retained (cited : DataFrame TitleRow) raw lc (r : TitleRow) :
  r ∈ rows cited ->
  exists t, t ∈ rows (groupBy_count raw lc cited) /\
            t_journal t = journal r /\ t_journal_lc t = journal_lc r /\
            (1 <= t_count t)%Z.
Proof.
  intros Hr.
  set (n := length (List.filter
                      (fun x => bool_decide ((journal x, journal_lc x)
                                             = (journal r, journal_lc r)))
                      (rows cited))).
  exists {| t_journal := journal r; t_journal_lc := journal_lc r;
            t_count := Z.of_nat n |}.
  split; [|cbn; repeat split; try done].
  - apply elem_of_groupBy_count. cbn. split; [by destruct r | done].
  - assert (0 < n); [|lia]. apply (filter_length_pos _ r); [done|].
    by apply bool_decide_eq_true_2.
Qed.

(** C4, amended.  A pair with both titles present, lower-cased forms that
    differ and a lower-cased source title other than the text [null] is
    retained, whatever its work title otherwise is (the text [null]
    included), and the tally has the row of its source title, with a count
    of at least one.  Every other pair is dropped: those with a missing
    title (in particular a source title without a work title), those whose
    two lower-cased titles are equal, and those whose lower-cased source
    title is the text [null]. *)
Theorem extractor_drops_and_keeps (pre post : list RefPair) (p : RefPair) :
  (forall j t,
     tmp_first p = Some j -> tmp_second p = Some t ->
     lower j <> lower t -> lower j <> "null" ->
     rows <$> extract (pre ++ p :: post) =
       Ok (map select_207 (List.filter kept (map with_lc pre)) ++
           {| journal := Some j; journal_lc := Some (lower j) |} ::
           map select_207 (List.filter kept (map with_lc post)))%list /\
     exists tally row,
       ref_tally (pre ++ p :: post) = Ok tally /\ row ∈ rows tally /\
       t_journal row = Some j /\ t_journal_lc row = Some (lower j) /\
       (1 <= t_count row)%Z) /\
  (tmp_first p = None \/ tmp_second p = None \/
   lower_col (tmp_first p) = lower_col (tmp_second p) \/
   lower_col (tmp_first p) = Some "null" ->
   rows <$> extract (pre ++ p :: post) = rows <$> extract (pre ++ post)) /\
  ((exists j t, tmp_first p = Some j /\ tmp_second p = Some t /\
                lower j <> lower t /\ lower j <> "null") \/
   (tmp_first p = None \/ tmp_second p = None \/
    lower_col (tmp_first p) = lower_col (tmp_second p) \/
    lower_col (tmp_first p) = Some "null")).
Proof.
  split; [|split].
  - intros j t Hj Ht Hne Hn.
    assert (Hk : kept (with_lc p) = true) by (apply kept_iff; by exists j, t).
    assert (Hrow : select_207 (with_lc p)
                   = {| journal := Some j; journal_lc := Some (lower j) |}).
    { unfold select_207, with_lc; simpl. by rewrite Hj. }
    split; [by rewrite (extract_kept _ _ _ Hk), Hrow|].
    destruct (ref_tally_ok (pre ++ p :: post)) as (cited & He & Htally).
    destruct (tally_row_of_retained cited "ref_journal" "ref_journal_lc"
                {| journal := Some j; journal_lc := Some (lower j) |})
      as (row & Hin & H1 & H2 & H3).
    { apply (elem_of_extract _ _ _ He). exists p. split; [|done].
      apply elem_of_app. right. left. }
    by exists (groupBy_count "ref_journal" "ref_journal_lc" cited), row.
  - intros Hd. apply extract_dropped. apply not_true_is_false.
    intros (j & t & Hj & Ht & Hne & Hn)%kept_iff. rewrite Hj, Ht in Hd. simpl in Hd.
    destruct Hd as [?|[?|[[= ?]|[= ?]]]]; done.
  - destruct (tmp_first p) as [j|]; [|by right; left].
    destruct (tmp_second p) as [t|]; [|by right; right; left].
    destruct (decide (lower j = lower t)) as [E|Hne].
    { right; right; right; left. simpl. by rewrite E. }
    destruct (decide (lower j = "null")) as [E|Hn].
    { right; right; right; right. simpl. by rewrite E. }
    left. by exists j, t.
Qed.

(** ** The tally *)

(** C3, amended.  The tally groups the retained pairs by the raw source
    title together with its lower-cased form: it has exactly one row per
    distinct raw source title, every retained pair is counted in the row of
    its own raw title, and the count of a row is the number of retained
    pairs with that raw title (at least one).  Titles that differ only in
    case share the lower-cased column but not the row. *)
Theorem tally_groups_by_raw_title (pairs : list RefPair) :
  exists cited tally,
    extract pairs = Ok cited /\ ref_tally pairs = Ok tally /\
    NoDup (map t_journal (rows tally)) /\
    (forall t, t ∈ rows tally ->
       t_journal_lc t = lower_col (t_journal t) /\
       (1 <= t_count t)%Z /\
       t_count t =
         Z.of_nat (length (List.filter
                             (fun r => bool_decide (journal r = t_journal t))
                             (rows cited)))) /\
    (forall r, r ∈ rows cited ->
       exists t, t ∈ rows tally /\ t_journal t = journal r /\
                 t_journal_lc t = journal_lc r).
Proof.
  destruct (ref_tally_ok pairs) as (cited & He & Ht).
  exists cited, (groupBy_count "ref_journal" "ref_journal_lc" cited).
  split; [done|]. split; [done|].
  assert (Hlc : forall r, r ∈ rows cited -> journal_lc r = lower_col (journal r)).
  { intros r Hr. apply (extract_row_inv _ _ _ He) in Hr as (j & -> & -> & _). done. }
  split; [|split].
  - unfold groupBy_count. cbn [rows]. rewrite <- list_fmap_compose.
    set (keys := map (fun r => (journal r, journal_lc r)) (rows cited)).
    assert (Heq : (t_journal ∘ (fun kn : (option string * option string) * Z =>
                     {| t_journal := kn.1.1; t_journal_lc := kn.1.2; t_count := kn.2 |}))
                  <$> group_count keys = fst <$> (group_count keys).*1).
    { rewrite <- list_fmap_compose. done. }
    rewrite Heq. apply NoDup_fmap_2_strong; [|apply group_count_NoDup].
    intros [a b] [a' b'] Hin Hin' E. simpl in E. subst a'.
    apply (proj1 (group_count_keys _ _)) in Hin.
    apply (proj1 (group_count_keys _ _)) in Hin'. unfold keys in Hin, Hin'.
    apply list_elem_of_fmap in Hin as (r & Hk & Hr).
    apply list_elem_of_fmap in Hin' as (r' & Hk' & Hr').
    simpl in Hk, Hk'. injection Hk as -> ->. injection Hk' as E ->.
    by rewrite (Hlc _ Hr), (Hlc _ Hr'), E.
  - intros t Hin. pose proof Hin as Hin0.
    apply elem_of_groupBy_count in Hin as [Hin Hn].
    pose proof (Hlc _ Hin) as Hl. cbn in Hl.
    split; [done|].
    assert (Hsame : List.filter
              (fun r => bool_decide ((journal r, journal_lc r)
                                     = (t_journal t, t_journal_lc t))) (rows cited)
            = List.filter (fun r => bool_decide (journal r = t_journal t)) (rows cited)).
    { apply filter_ext_in. intros r Hr%list_elem_of_In. apply bool_decide_ext.
      split; [by intros [= ? ?]|]. intros E. by rewrite (Hlc _ Hr), E, Hl. }
    rewrite <- Hsame, <- Hn. split; [|done].
    pose proof (filter_length_pos
      (fun r => bool_decide ((journal r, journal_lc r) = (t_journal t, t_journal_lc t)))
      _ _ Hin) as Hpos.
    cbn beta in Hpos. cbn [journal journal_lc] in Hpos.
    rewrite bool_decide_eq_true_2 in Hpos by done. specialize (Hpos eq_refl). lia.
  - intros r Hr.
    destruct (tally_row_of_retained cited "ref_journal" "ref_journal_lc" r Hr)
      as (t & ? & ? & ? & _). by exists t.
Qed.

(** ** [my_zip] *)

Lemma zip_items_length xs ys :
  length (zip_items xs ys) = Nat.min (length xs) (length ys).
Proof.
  revert ys; induction xs as [|x xs IH]; intros [|y ys]; simpl; try done.
  by rewrite IH.
Qed.

Lemma zip_items_lookup xs ys (i : nat) :
  zip_items xs ys !! i =
  match xs !! i, ys !! i with
  | Some a, Some b => Some (PyTuple [a; b])
  | _, _ => None
  end.
Proof.
  revert ys i; induction xs as [|x xs IH]; intros [|y ys] [|i]; simpl; try done.
  by destruct (xs !! i).
Qed.

(** C8.  On two lists [my_zip] is their element-wise zip, as long as the
    shorter one; as soon as one argument is not a list it returns the two
    arguments as one pair [[x, y]], and never raises. *)
Theorem my_zip_zips_lists_else_pairs (x y : pyval) :
  (forall xs ys, x = PyList xs -> y = PyList ys ->
     exists items,
       my_zip x y = PyZip items /\
       length items = Nat.min (length xs) (length ys) /\
       forall i : nat,
         items !! i =
         match xs !! i, ys !! i with
         | Some a, Some b => Some (PyTuple [a; b])
         | _, _ => None
         end) /\
  (isinstance_list x && isinstance_list y = false -> my_zip x y = PyList [x; y]).
Proof.
  split.
  - intros xs ys -> ->. exists (zip_items xs ys). split; [done|].
    split; [apply zip_items_length | apply zip_items_lookup].
  - unfold my_zip. by intros ->.
Qed.

Lemma my_zip_zips_lists_else_pairs_witness :
  (exists items,
     my_zip (PyList [PyStr "Health"; PyNone; PyStr "Nature"])
            (PyList [PyStr "A paper"; PyStr "A book"]) = PyZip items /\
     length items = 2) /\
  my_zip PyNone (PyList [PyStr "A paper"]) = PyList [PyNone; PyList [PyStr "A paper"]].
Proof.
  split.
  - destruct (proj1 (my_zip_zips_lists_else_pairs
                       (PyList [PyStr "Health"; PyNone; PyStr "Nature"])
                       (PyList [PyStr "A paper"; PyStr "A book"])) _ _ eq_refl eq_refl)
      as (items & H1 & H2 & _).
    exists items. split; [exact H1 | exact H2].
  - apply (proj2 (my_zip_zips_lists_else_pairs PyNone (PyList [PyStr "A paper"]))).
    reflexivity.
Defined.

Lemma zip_never_raises (x y : pyval) :
  exists items, zip_ x y = Ok (PyList items).
Proof.
  unfold zip_, my_zip. destruct (isinstance_list x && isinstance_list y); by eexists.
Qed.

Example my_zip_truncates :
  my_zip (PyList [PyStr "Health"; PyNone; PyStr "Nature"])
         (PyList [PyStr "A paper"; PyStr "A book"])
  = PyZip [PyTuple [PyStr "Health"; PyStr "A paper"]; PyTuple [PyNone; PyStr "A book"]].
Proof. reflexivity. Qed.

(** ** The chained [and] of line 206 *)

Lemma py_and_truthy_strings (a b c : string) :
  a <> "" -> b <> "" -> py_and (py_and (PyStr a) (PyStr b)) (PyStr c) = PyStr c.
Proof.
  intros Ha Hb. unfold py_and, truthy, str_eqb.
  rewrite (bool_decide_eq_false_2 _ Ha). simpl.
  by rewrite (bool_decide_eq_false_2 _ Hb).
Qed.

(** C6, amended.  A chain [a and b and c] of non-empty strings evaluates to
    its last string, so a filter on the chain is the filter on [c] alone.
    The filter of line 206 is therefore the filter on
    [ref_journal_lc!=ref_title_lc]: it keeps the rows whose two lower-cased
    titles are both present and different, and the first two conditions are
    discarded. *)
Theorem chained_and_is_the_last_condition (a b c : string) (rs : list RefRow) :
  a <> "" -> b <> "" ->
  py_and (py_and (PyStr a) (PyStr b)) (PyStr c) = PyStr c /\
  (forall R (df : DataFrame R),
     filter_py (py_and (py_and (PyStr a) (PyStr b)) (PyStr c)) df = filter_sql c df) /\
  cond_206 = PyStr "ref_journal_lc!=ref_title_lc" /\
  rows <$> filter_py cond_206 (mkDF ref_schema rs) =
    Ok (List.filter
          (fun r => holds (sql_neq (of_str (ref_journal_lc r)) (of_str (ref_title_lc r))))
          rs).
Proof.
  intros Ha Hb. pose proof (py_and_truthy_strings a b c Ha Hb) as Hchain.
  split; [exact Hchain|]. split.
  - intros R df. by rewrite Hchain.
  - split; [reflexivity|]. by rewrite filter_206.
Qed.

Lemma chained_and_is_the_last_condition_witness :
  py_and (py_and (PyStr "ref_journal_lc!='null'") (PyStr "ref_title_lc!='null'"))
         (PyStr "ref_journal_lc!=ref_title_lc")
  = PyStr "ref_journal_lc!=ref_title_lc".
Proof.
  refine (proj1 (chained_and_is_the_last_condition
                   "ref_journal_lc!='null'" "ref_title_lc!='null'"
                   "ref_journal_lc!=ref_title_lc" [] _ _)); by vm_compute.
Defined.
(** ** Normalisation of titles *)

Section Normalisation.
Context `{!LowerLaws}.

Lemma normalize_twice s : normalize (normalize s) = amp (amp (lower s)).
Proof.
  unfold normalize. rewrite (lower_replaced (lower s)); [done|]. apply lower_lower.
Qed.

(** C9, amended.  For an engine whose [lower()] obeys the three laws of
    [LowerLaws]: strings with the same lower-cased form have the same normal
    form, and so have ASCII strings that differ only in the case of their
    letters; lower-casing alone is idempotent; and
    [normalize (normalize x) = normalize x] holds exactly for the strings
    whose lower-cased form has no two ampersands one blank apart (no
    [" & & "]). *)
Theorem normalize_case_insensitive_idempotent_iff (x y : string) :
  (lower x = lower y -> normalize x = normalize y) /\
  (is_ascii x = true -> is_ascii y = true -> differ_only_in_case x y = true ->
   normalize x = normalize y) /\
  lower (lower x) = lower x /\
  (normalize (normalize x) = normalize x <-> contains " & & " (lower x) = false).
Proof.
  split; [|split; [|split]].
  - intros E. unfold normalize. by rewrite E.
  - intros Hx Hy Hd. unfold normalize.
    by rewrite (lower_ascii x Hx), (lower_ascii y Hy), (differ_only_in_case_lower _ _ Hd).
  - apply lower_lower.
  - rewrite normalize_twice. unfold normalize.
    by rewrite amp_fixed_iff, amp_leaves_occurrence.
Qed.

End Normalisation.

(** ** Which normalisation each title gets *)

Lemma elem_of_ss_df csv (s : SsRow) :
  s ∈ rows (ss_df csv) <-> exists raw, raw ∈ csv /\ s = ss_title raw.
Proof.
  unfold ss_df. cbn [rows]. rewrite elem_of_remove_dups, list_elem_of_fmap.
  split; intros (raw & ? & ?); by exists raw.
Qed.

Lemma ss_title_normalize (raw : SsRow) :
  Title (ss_title raw) = normalize <$> Title raw.
Proof. by destruct raw as [[t|] ? ?]. Qed.

Lemma elem_of_serial_df docs (s : SerialRow) :
  s ∈ rows (serial_df docs) ->
  exists d, d ∈ docs /\ serial s = dc_title d /\ serial_lc s = lower_col (dc_title d) /\
            serial_issn s = prism_issn d /\ serial_eissn s = prism_eIssn d.
Proof.
  unfold serial_df. cbn [rows]. intros (d & -> & Hd)%list_elem_of_fmap.
  apply list_elem_of_In, filter_In in Hd as [Hd _]. apply list_elem_of_In in Hd.
  by exists d.
Qed.

(** C5, amended.  Reference source titles and serial titles are lower-cased
    and nothing else; subscription titles are lower-cased and then have
    [" & "] replaced by [" and "].  So a row of the serial join matches a
    subscription row by title exactly when the lower-cased reference title
    equals the normalised subscription title. *)
Theorem titles_normalized_per_source
    (pairs : list RefPair) (serials : list SerialDoc) (csv : list SsRow)
    (stage1 : DataFrame Stage1Row) (r : Stage1Row) (s : SsRow) :
  ref_journal_df pairs serials = Ok stage1 ->
  r ∈ rows stage1 -> s ∈ rows (ss_df csv) ->
  exists j d raw,
    s_journal r = Some j /\ s_journal_lc r = Some (lower j) /\
    d ∈ serials /\ lower_col (dc_title d) = Some (lower j) /\
    raw ∈ csv /\ Title s = normalize <$> Title raw /\
    (holds (sql_eq (of_str (s_journal_lc r)) (of_str (Title s))) = true <->
     exists u, Title raw = Some u /\ lower j = normalize u).
Proof.
  intros Hdf Hr Hs.
  destruct (ref_journal_df_ok pairs serials) as (tally & Ht & Hdf').
  rewrite Hdf' in Hdf. injection Hdf as <-.
  apply elem_of_join_serial in Hr as (t & srow & Hin & Hsrow & Hc & ->).
  apply (tally_row_inv _ _ _ Ht) in Hin as (j & Hj & Hlc & _).
  apply elem_of_serial_df in Hsrow as (d & Hd & _ & Hdlc & _).
  apply elem_of_ss_df in Hs as (raw & Hraw & ->).
  exists j, d, raw. cbn [select_stage1 s_journal s_journal_lc fst snd].
  split; [done|]. split; [done|]. split; [done|]. split.
  { unfold serial_cond in Hc. apply sql_eq_holds in Hc as (u & Hu1 & Hu2).
    by rewrite <- Hdlc, Hu2, <- Hu1. }
  split; [done|]. split; [apply ss_title_normalize|].
  rewrite sql_eq_holds, ss_title_normalize, Hlc. split.
  - intros (u & [= <-] & Hu). destruct (Title raw) as [v|]; [|done].
    injection Hu as Hu. by exists v.
  - intros (u & -> & Hu). exists (lower j). by rewrite Hu.
Qed.

(** C1, amended.  A row of the serial join and a row of the subscription
    export are joined exactly when the lower-cased reference title equals
    the subscription title after lower-casing and replacement of [" & "] by
    [" and "] (the two sides are not normalised alike), or the serial's ISSN
    is present and equals the subscription's ISSN or eISSN, or the serial's
    eISSN is present and equals the subscription's eISSN or ISSN.  Present
    is the guard of lines 428 and 435: neither NULL nor the text [null]; a
    comparison with a NULL on either side is never TRUE. *)
Theorem subscription_join_matches
    (pairs : list RefPair) (serials : list SerialDoc) (csv : list SsRow)
    (df : DataFrame Stage1Row) (r : Stage1Row) (raw : SsRow) :
  ref_journal_df pairs serials = Ok df ->
  r ∈ rows df -> raw ∈ csv ->
  ((r, Some (ss_title raw)) ∈ rows (ref_journals df csv) <->
   (exists j u, s_journal r = Some j /\ Title raw = Some u /\ lower j = normalize u)
   \/ (exists i, s_issn r = Some i /\ i <> "null" /\
                 (ISSN raw = Some i \/ eISSN raw = Some i))
   \/ (exists e, s_eissn r = Some e /\ e <> "null" /\
                 (eISSN raw = Some e \/ ISSN raw = Some e))).
Proof.
  intros Hdf Hr Hraw.
  destruct (stage1_row_inv _ _ _ _ Hdf Hr) as (j & Hj & Hlc & _).
  unfold ref_journals, join_ss. cbn [rows].
  rewrite elem_of_left_outer_join, subscription_cond_holds, ss_title_normalize, Hlc.
  cbn [ss_title ISSN eISSN].
  assert (Hss : ss_title raw ∈ rows (ss_df csv)) by (apply elem_of_ss_df; by exists raw).
  split.
  - intros (_ & _ & [(t & [= <-] & Ht) | Hid]); [|by right].
    left. destruct (Title raw) as [u|]; [|done]. injection Ht as Ht. by exists j, u.
  - intros Hm. split; [done|]. split; [done|].
    destruct Hm as [(j' & u & Hj' & Hu & E) | Hid]; [|by right].
    left. rewrite Hj in Hj'. injection Hj' as <-. exists (lower j).
    split; [done|]. by rewrite Hu, E.
Qed.

(** ** Persisting the results *)

Lemma save_fresh {R} (df : DataFrame R) path (files : gmap string Table) :
  files !! path = None -> save df path files = Ok (<[path := to_table df]> files).
Proof. unfold save. by intros ->. Qed.

Lemma save_existing {R} (df : DataFrame R) path (files : gmap string Table) :
  is_Some (files !! path) ->
  save df path files = Err (AnalysisException ("path " +:+ path +:+ " already exists.")).
Proof. unfold save. by intros [t ->]. Qed.

(** The claim of C7 fails: after a first run has written the two paths, a
    second run over the same frames raises at its first save. *)
Lemma second_run_raises :
  exists files1,
    persist (mkDF (joined_schema "ref_journal" "ref_journal_lc") [])
            (mkDF (outer_schema (stage1_schema "journal" "journal_lc" "count") ss_schema) [])
            ∅ = Ok files1 /\
    persist (mkDF (joined_schema "ref_journal" "ref_journal_lc") [])
            (mkDF (outer_schema (stage1_schema "journal" "journal_lc" "count") ss_schema) [])
            files1
    = Err (AnalysisException "path ../data/ref_journals.parquet already exists.").
Proof.
  eexists. unfold persist, save_ref_journals, save_pub_journals. split.
  - rewrite save_fresh by apply lookup_empty. cbn [mbind result_bind].
    rewrite save_fresh; [reflexivity|]. by rewrite lookup_insert_ne, lookup_empty.
  - rewrite save_existing; [reflexivity|].
    rewrite lookup_insert_ne by done. rewrite lookup_insert_eq. by eexists.
Qed.

(** C7, amended.  The two saves use the writer's default mode.  On files
    that hold neither output path a run succeeds and leaves each frame under
    its fixed path, every other path untouched.  On the files it leaves, any
    further run raises at its first save and each saving cell raises on its
    own, the files staying as the first run left them: nothing is
    overwritten, nothing is appended. *)
Theorem save_refuses_existing_path
    (ref_df : DataFrame Stage1Row) (pub_df : DataFrame (Stage1Row * option SsRow))
    (files : gmap string Table) :
  files !! "../data/ref_journals.parquet" = None ->
  files !! "../data/pub_journals.parquet" = None ->
  exists files',
    persist ref_df pub_df files = Ok files' /\
    files' !! "../data/ref_journals.parquet" = Some (to_table ref_df) /\
    files' !! "../data/pub_journals.parquet" = Some (to_table pub_df) /\
    (forall p, p <> "../data/ref_journals.parquet" ->
               p <> "../data/pub_journals.parquet" -> files' !! p = files !! p) /\
    (forall (ref_df' : DataFrame Stage1Row)
            (pub_df' : DataFrame (Stage1Row * option SsRow)),
       persist ref_df' pub_df' files'
         = Err (AnalysisException "path ../data/ref_journals.parquet already exists.") /\
       run_cell (save_ref_journals ref_df') files'
         = (files', Some (AnalysisException
                            "path ../data/ref_journals.parquet already exists.")) /\
       run_cell (save_pub_journals pub_df') files'
         = (files', Some (AnalysisException
                            "path ../data/pub_journals.parquet already exists."))).
Proof.
  intros Href Hpub.
  exists (<["../data/pub_journals.parquet" := to_table pub_df]>
            (<["../data/ref_journals.parquet" := to_table ref_df]> files)).
  unfold persist, save_ref_journals, save_pub_journals, run_cell.
  split; [|split; [|split; [|split]]].
  - rewrite (save_fresh _ _ _ Href). cbn [mbind result_bind].
    rewrite save_fresh; [done|]. by rewrite lookup_insert_ne.
  - rewrite lookup_insert_ne by done. apply lookup_insert_eq.
  - apply lookup_insert_eq.
  - intros p H1 H2. by rewrite !lookup_insert_ne.
  - intros ref_df' pub_df'.
    assert (H1 : is_Some ((<["../data/pub_journals.parquet" := to_table pub_df]>
                             (<["../data/ref_journals.parquet" := to_table ref_df]> files))
                          !! "../data/ref_journals.parquet")).
    { rewrite lookup_insert_ne by done. rewrite lookup_insert_eq. by eexists. }
    assert (H2 : is_Some ((<["../data/pub_journals.parquet" := to_table pub_df]>
                             (<["../data/ref_journals.parquet" := to_table ref_df]> files))
                          !! "../data/pub_journals.parquet")).
    { rewrite lookup_insert_eq. by eexists. }
    rewrite (save_existing ref_df' _ _ H1), (save_existing pub_df' _ _ H2). done.
Qed.

Lemma save_refuses_existing_path_witness :
  exists files',
    persist (mkDF (joined_schema "ref_journal" "ref_journal_lc") [])
            (mkDF (outer_schema (stage1_schema "journal" "journal_lc" "count") ss_schema) [])
            ∅ = Ok files' /\
    forall (ref_df' : DataFrame Stage1Row)
           (pub_df' : DataFrame (Stage1Row * option SsRow)),
      persist ref_df' pub_df' files'
      = Err (AnalysisException "path ../data/ref_journals.parquet already exists.").
Proof.
  destruct (save_refuses_existing_path
              (mkDF (joined_schema "ref_journal" "ref_journal_lc") [])
              (mkDF (outer_schema (stage1_schema "journal" "journal_lc" "count") ss_schema) [])
              ∅ (lookup_empty _) (lookup_empty _))
    as (files' & Hrun & _ & _ & _ & Hagain).
  exists files'. split; [exact Hrun|]. intros a b. exact (proj1 (Hagain a b)).
Defined.

(** ** Sorting by count *)

Section SortDesc.
Context {R : Type} (key : R -> Z).

Lemma insert_desc_perm x l : insert_desc key x l ≡ₚ x :: l.
Proof.
  induction l as [|y l IH]; simpl; [done|].
  destruct (key y <? key x)%Z; [done|]. rewrite IH. apply Permutation_swap.
Qed.

Lemma sort_rows_desc_perm l : sort_rows_desc key l ≡ₚ l.
Proof.
  induction l as [|x l IH]; simpl; [done|].
  by rewrite insert_desc_perm, IH.
Qed.

Lemma insert_desc_sorted x l :
  Sorted (fun a b => (key b <= key a)%Z) l ->
  Sorted (fun a b => (key b <= key a)%Z) (insert_desc key x l).
Proof.
  induction l as [|y l IH]; simpl; intros Hs.
  - by repeat constructor.
  - destruct (key y <? key x)%Z eqn:E.
    + constructor; [done|]. constructor. lia.
    + apply Sorted_inv in Hs as [Hs Hhd]. constructor; [by apply IH|].
      destruct l as [|z l]; simpl.
      * constructor. lia.
      * destruct (key z <? key x)%Z; constructor; [lia|].
        by apply HdRel_inv in Hhd.
Qed.

Lemma sort_rows_desc_sorted l :
  Sorted (fun a b => (key b <= key a)%Z) (sort_rows_desc key l).
Proof.
  induction l as [|x l IH]; simpl; [constructor | by apply insert_desc_sorted].
Qed.

End SortDesc.

(** ** The two reports *)

Lemma not_subscribed_without_title {R} (df : DataFrame R) cols by_col :
  lookup_col (schema df) "Title" = None ->
  not_subscribed df cols by_col = Err (AttributeError "Title").
Proof. unfold not_subscribed, getattr. by intros ->. Qed.

(** C2.  The cited-not-subscribed report of lines 516-518 is taken from
    [ref_journal_df], which is still the frame of the serial join (the
    subscription join went to [ref_journals]); that frame has no [Title]
    column, so the cell raises on every input and lists nothing. *)
Theorem cited_report_reads_the_serial_join
    (pairs : list RefPair) (serials : list SerialDoc) :
  ref_journal_df pairs serials ≫= cited_not_subscribed = Err (AttributeError "Title").
Proof.
  destruct (ref_journal_df_ok pairs serials) as (tally & _ & ->).
  reflexivity.
Qed.

(** The report on the publications reads the joined frame, and is what the
    spec describes: the rows with a NULL subscription title, six columns,
    by decreasing count. *)
Lemma published_report_ok
    (docs : list Document) (serials : list SerialDoc) (csv : list SsRow) :
  exists df rep,
    journal_df docs serials csv = Ok df /\
    published_not_subscribed df = Ok rep /\
    columns rep
      = ["serial_id"; "journal"; "serial_issn"; "serial_eissn"; "open_access"; "count"] /\
    rows rep ≡ₚ
      List.filter
        (fun m : Stage1Row * option SsRow =>
           isNull (match m.2 with Some b => of_str (Title b) | None => VNull end))
        (rows df) /\
    Sorted (fun a b : Stage1Row * option SsRow => (s_count b.1 <= s_count a.1)%Z)
           (rows rep).
Proof.
  eexists _, _. split; [reflexivity|]. split; [reflexivity|].
  split; [reflexivity|]. split.
  - etrans; [apply sort_rows_desc_perm|]. cbn [rows filter_by].
    erewrite filter_ext; [done|]. intros [r [b|]]; cbn; [|done].
    by destruct (Title b).
  - apply (sort_rows_desc_sorted (fun m : Stage1Row * option SsRow => s_count m.1)).
Qed.

(** ** The two joins of the reference analysis *)

(** The serial join is inner: a stage-1 row is a tally row with a serial of
    the same lower-cased title, and a tally row without one yields nothing. *)
Lemma serial_join_is_inner (tally : DataFrame TallyRow) (serials : DataFrame SerialRow) :
  (forall r, r ∈ rows (join_serial "ref_journal" "ref_journal_lc" tally serials)
     <-> exists t s, t ∈ rows tally /\ s ∈ rows serials /\
                     (exists u, t_journal_lc t = Some u /\ serial_lc s = Some u) /\
                     r = select_stage1 (t, s)) /\
  (forall t, (forall s, s ∈ rows serials -> holds (serial_cond t s) = false) ->
             matches serial_cond t (rows serials) = []).
Proof.
  split.
  - intros r. rewrite elem_of_join_serial. unfold serial_cond.
    split; intros (t & s & ? & ? & Hc & ?); exists t, s;
      (split; [done|]); (split; [done|]); (split; [|done]); by apply sql_eq_holds.
  - intros t Hall. by apply matches_nil.
Qed.

(** A subscription row that matches has a title or an identifier. *)
Lemma matched_subscription_not_null (r : Stage1Row) (s : SsRow) :
  holds (subscription_cond r s) = true ->
  ~ (Title s = None /\ ISSN s = None /\ eISSN s = None).
Proof.
  intros Hc%subscription_cond_holds (Ht & Hi & He).
  rewrite Ht, Hi, He in Hc.
  destruct Hc as [(? & _ & [=]) | [(? & _ & _ & [[=]|[=]]) | (? & _ & _ & [[=]|[=]])]].
Qed.

(** The subscription join is left-outer: every stage-1 row is in the
    result, and the three subscription cells of a result row are all NULL
    exactly when no subscription row matched it. *)
Lemma subscription_join_is_left_outer
    (stage1 : DataFrame Stage1Row) (csv : list SsRow) :
  (forall r, r ∈ rows stage1 -> exists ob, (r, ob) ∈ rows (ref_journals stage1 csv)) /\
  (forall r ob, (r, ob) ∈ rows (ref_journals stage1 csv) ->
     r ∈ rows stage1 /\
     (cells (outer_schema [] ss_schema) (r, ob) = [VNull; VNull; VNull] <->
      forall s, s ∈ rows (ss_df csv) -> holds (subscription_cond r s) = false)).
Proof.
  unfold ref_journals, join_ss. cbn [rows]. split.
  - intros r Hr. by apply left_outer_join_total.
  - intros r ob Hin. apply elem_of_left_outer_join in Hin as [Hr Hob].
    split; [done|]. destruct ob as [b|].
    + destruct Hob as [Hb Hc]. split.
      * intros Hcells. exfalso.
        apply (matched_subscription_not_null _ _ Hc).
        cbn in Hcells. destruct b as [[?|] [?|] [?|]]; simpl in *; try done.
      * intros Hall. rewrite (Hall b Hb) in Hc. done.
    + split; [done|]. intros _. reflexivity.
Qed.

(** ** The cases the spec lists for the subscription join *)

Example cross_field_match :
  holds (subscription_cond
           {| s_serial_id := Some "24710";
              s_journal := Some "Annals of Applied Probability";
              s_journal_lc := Some "annals of applied probability";
              s_issn := Some "1050-5164"; s_eissn := None; s_open_access := None;
              s_count := 3; s_serial := Some "Annals of Applied Probability";
              s_serial_lc := Some "annals of applied probability" |}
           {| Title := Some "the annals of applied probability";
              ISSN := None; eISSN := Some "1050-5164" |}) = true.
Proof. reflexivity. Qed.

Lemma missing_identifiers_never_match (r : Stage1Row) (s : SsRow) :
  (s_issn r = None \/ s_issn r = Some "null") ->
  (s_eissn r = None \/ s_eissn r = Some "null") ->
  holds (subscription_cond r s) = true <->
  exists t, s_journal_lc r = Some t /\ Title s = Some t.
Proof.
  intros Hi He. rewrite subscription_cond_holds. split; [|by left].
  intros [Ht | [(i & Hi' & Hn & _) | (e & He' & Hn & _)]]; [done| |].
  - rewrite Hi' in Hi. destruct Hi as [[=]|[= ->]]. done.
  - rewrite He' in He. destruct He as [[=]|[= ->]]. done.
Qed.

Lemma differing_identifiers_never_match (r : Stage1Row) (s : SsRow) :
  s_issn r <> ISSN s -> s_issn r <> eISSN s ->
  s_eissn r <> ISSN s -> s_eissn r <> eISSN s ->
  holds (subscription_cond r s) = true <->
  exists t, s_journal_lc r = Some t /\ Title s = Some t.
Proof.
  intros H1 H2 H3 H4. rewrite subscription_cond_holds. split; [|by left].
  intros [Ht | [(i & Hi & _ & [E|E]) | (e & He & _ & [E|E])]]; [done|..];
    congruence.
Qed.
(** * Further properties of the notebook's cells *)

(** ** The [zip_] UDF (line 176) *)

Lemma zip_items_tuples xs ys :
  Forall (fun it => exists a b, it = PyTuple [a; b]) (zip_items xs ys).
Proof.
  revert ys; induction xs as [|x xs IH]; intros [|y ys]; simpl; try by constructor.
  constructor; [by exists x, y | apply IH].
Qed.

(** X1.  The function wrapped by the [zip_] UDF never raises.  On two lists
    it returns as many 2-tuples as the shorter list has items; in every
    other case it returns exactly the two arguments themselves, so that a
    document whose reference columns are not lists still yields two items. *)
Theorem zip_udf_result (x y : pyval) :
  exists items,
    zip_ x y = Ok (PyList items) /\
    length items =
      (if isinstance_list x && isinstance_list y
       then Nat.min (length (list_items x)) (length (list_items y))
       else 2) /\
    (isinstance_list x && isinstance_list y = true ->
     Forall (fun it => exists a b, it = PyTuple [a; b]) items) /\
    (isinstance_list x && isinstance_list y = false -> items = [x; y]).
Proof.
  unfold zip_, my_zip.
  destruct (isinstance_list x && isinstance_list y) eqn:E.
  - exists (zip_items (list_items x) (list_items y)). split; [done|].
    split; [apply zip_items_length|]. split; [intros _; apply zip_items_tuples | done].
  - exists [x; y]. by repeat split.
Qed.

Lemma zip_udf_result_witness :
  exists items, zip_ PyNone PyNone = Ok (PyList items) /\ items = [PyNone; PyNone].
Proof.
  destruct (zip_udf_result PyNone PyNone) as (items & H1 & _ & _ & H2).
  exists items. split; [exact H1 | exact (H2 eq_refl)].
Defined.

(** ** The extractor on a concatenation (lines 198-207) *)

Lemma retained_titles_sublist (l : list RefPair) :
  map journal (map select_207 (List.filter kept (map with_lc l)))
    `sublist_of` map tmp_first l.
Proof.
  induction l as [|p l IH]; [constructor|].
  cbn [map List.filter]. destruct (kept (with_lc p)).
  - cbn [map]. by apply sublist_skip.
  - by apply sublist_cons.
Qed.

(** X2.  The extractor never raises and works reference by reference: what
    it retains from a concatenation is what it retains from the first part
    followed by what it retains from the second, and the retained source
    titles are a subsequence of the given ones (nothing is reordered,
    duplicated or invented). *)
Theorem extract_is_rowwise (l1 l2 : list RefPair) :
  exists r1 r2,
    rows <$> extract l1 = Ok r1 /\
    rows <$> extract l2 = Ok r2 /\
    rows <$> extract (l1 ++ l2)%list = Ok (r1 ++ r2)%list /\
    map journal r1 `sublist_of` map tmp_first l1 /\
    length r1 <= length l1.
Proof.
  eexists _, _. rewrite !extract_rows_fmap.
  split; [done|]. split; [done|]. split; [by rewrite extract_app|].
  pose proof (retained_titles_sublist l1) as Hs. split; [done|].
  apply sublist_length in Hs. rewrite !length_map in Hs. by rewrite !length_map.
Qed.

(** ** Counts of the tally (lines 276-278) *)

Lemma bump_sum {K} `{EqDecision K} (k : K) (acc : list (K * Z)) :
  foldr Z.add 0%Z (bump k acc).*2 = (foldr Z.add 0%Z acc.*2 + 1)%Z.
Proof.
  induction acc as [|[k0 n0] acc IH]; [done|].
  cbn [bump]. case_decide; rewrite !fmap_cons; cbn [foldr snd]; [lia|].
  rewrite IH. lia.
Qed.

Lemma group_count_sum {K} `{EqDecision K} (keys : list K) :
  foldr Z.add 0%Z (group_count keys).*2 = Z.of_nat (length keys).
Proof.
  induction keys as [|k keys IH]; [done|].
  cbn [group_count foldr]. fold (group_count keys). rewrite bump_sum, IH.
  cbn [length]. lia.
Qed.

Lemma group_count_length {K} `{EqDecision K} (keys : list K) :
  length (group_count keys) = length (remove_dups keys).
Proof.
  rewrite <- (length_fmap fst). apply Permutation_length.
  apply NoDup_Permutation; [apply group_count_NoDup | apply NoDup_remove_dups |].
  intros k. by rewrite group_count_keys, elem_of_remove_dups.
Qed.

(** Rows whose lower-cased column is the lower-casing of the raw one. *)
Lemma remove_dups_keys_length (l : list TitleRow) :
  (forall r, r ∈ l -> journal_lc r = lower_col (journal r)) ->
  length (remove_dups (map (fun r => (journal r, journal_lc r)) l)) =
  length (remove_dups (map journal l)).
Proof.
  intros Hlc. rewrite <- (length_fmap fst). apply Permutation_length.
  apply NoDup_Permutation; [|apply NoDup_remove_dups|].
  - apply NoDup_fmap_2_strong; [|apply NoDup_remove_dups].
    intros [a b] [a' b'] Hin Hin' E. simpl in E. subst a'.
    apply elem_of_remove_dups, list_elem_of_fmap in Hin as (r & Hk & Hr).
    apply elem_of_remove_dups, list_elem_of_fmap in Hin' as (r' & Hk' & Hr').
    simpl in Hk, Hk'. injection Hk as -> ->. injection Hk' as E ->.
    by rewrite (Hlc _ Hr), (Hlc _ Hr'), E.
  - intros a. rewrite list_elem_of_fmap, elem_of_remove_dups, list_elem_of_fmap. split.
    + intros ([a' b'] & -> & Hin).
      apply elem_of_remove_dups, list_elem_of_fmap in Hin as (r & [= -> ->] & Hr).
      by exists r.
    + intros (r & -> & Hr). exists (journal r, journal_lc r). split; [done|].
      apply elem_of_remove_dups, list_elem_of_fmap. by exists r.
Qed.

(** X3.  The tally neither loses nor invents a citation: its counts add up
    to the number of retained pairs, and it has as many rows as there are
    distinct raw source titles among them (the number printed by line
    278). *)
Theorem tally_counts_add_up (pairs : list RefPair) :
  exists cited tally,
    extract pairs = Ok cited /\ ref_tally pairs = Ok tally /\
    foldr Z.add 0%Z (map t_count (rows tally)) = Z.of_nat (length (rows cited)) /\
    length (rows tally) = length (remove_dups (map journal (rows cited))).
Proof.
  destruct (ref_tally_ok pairs) as (cited & He & Ht).
  exists cited, (groupBy_count "ref_journal" "ref_journal_lc" cited).
  split; [done|]. split; [done|]. unfold groupBy_count. cbn [rows]. split.
  - rewrite map_map. cbn [t_count].
    change (map (fun x : option string * option string * Z => x.2) ?l) with (l.*2).
    by rewrite group_count_sum, length_map.
  - rewrite length_map, group_count_length. apply remove_dups_keys_length.
    intros r Hr. apply (extract_row_inv _ _ _ He) in Hr as (j & -> & -> & _). done.
Qed.

(** ** The serial frame and the serial join (lines 86-93, 294, 338-340) *)

Lemma type_test_holds (o : option string) (ty : string) :
  holds (sql_eq (of_str o) (VStr ty)) = true <-> o = Some ty.
Proof.
  change (VStr ty) with (of_str (Some ty)). rewrite sql_eq_holds. split.
  - by intros (t & -> & [= ->]).
  - intros ->. by exists ty.
Qed.

Lemma elem_of_serial_df_iff (docs : list SerialDoc) (s : SerialRow) :
  s ∈ rows (serial_df docs) <->
  exists d, d ∈ docs /\ prism_aggregationType d = Some "journal" /\
            s = {| serial_id := source_id d; serial := dc_title d;
                   serial_issn := prism_issn d; serial_eissn := prism_eIssn d;
                   open_access := openaccess d;
                   serial_lc := lower_col (dc_title d) |}.
Proof.
  unfold serial_df. cbn [rows]. rewrite list_elem_of_fmap. split.
  - intros (d & -> & Hd). apply list_elem_of_In, filter_In in Hd as [Hd Ht].
    exists d. split; [by apply list_elem_of_In|]. split; [by apply type_test_holds | done].
  - intros (d & Hd & Ht & ->). exists d. split; [done|].
    apply list_elem_of_In, filter_In. split; [by apply list_elem_of_In|].
    by apply type_test_holds.
Qed.

Lemma filter_by_title (l : list TitleRow) (a : option string) :
  (forall r, r ∈ l -> journal_lc r = lower_col (journal r)) ->
  List.filter (fun r => bool_decide ((journal r, journal_lc r) = (a, lower_col a))) l
  = List.filter (fun r => bool_decide (journal r = a)) l.
Proof.
  intros Hlc. apply filter_ext_in. intros r Hr%list_elem_of_In. apply bool_decide_ext.
  split; [by intros [= ? ?]|]. intros <-. by rewrite (Hlc _ Hr).
Qed.

(** X5.  The rows of the reference serial join, read off the inputs: there
    is one row for each retained source title and each registry entry typed
    [journal] whose title has the same lower-cased form; it carries the
    entry's id and identifiers, the raw source title, and as count the
    number of retained pairs with that raw title. *)
Theorem reference_serial_join_rows
    (pairs : list RefPair) (serials : list SerialDoc)
    (cited : DataFrame TitleRow) (stage1 : DataFrame Stage1Row) (r : Stage1Row) :
  extract pairs = Ok cited ->
  ref_journal_df pairs serials = Ok stage1 ->
  (r ∈ rows stage1 <->
   exists j d u,
     {| journal := Some j; journal_lc := Some (lower j) |} ∈ rows cited /\
     d ∈ serials /\ prism_aggregationType d = Some "journal" /\
     dc_title d = Some u /\ lower u = lower j /\
     r = {| s_serial_id := source_id d; s_journal := Some j;
            s_journal_lc := Some (lower j);
            s_issn := prism_issn d; s_eissn := prism_eIssn d;
            s_open_access := openaccess d;
            s_count := Z.of_nat (length (List.filter
                                           (fun c => bool_decide (journal c = Some j))
                                           (rows cited)));
            s_serial := Some u; s_serial_lc := Some (lower u) |}).
Proof.
  intros He Hdf.
  destruct (ref_journal_df_ok pairs serials) as (tally & Ht & Hdf').
  rewrite Hdf' in Hdf. injection Hdf as <-.
  destruct (ref_tally_ok pairs) as (cited' & He' & Ht').
  rewrite He in He'. injection He' as <-. rewrite Ht' in Ht. injection Ht as <-.
  assert (Hlc : forall c, c ∈ rows cited -> journal_lc c = lower_col (journal c)).
  { intros c Hc. apply (extract_row_inv _ _ _ He) in Hc as (j & -> & -> & _). done. }
  rewrite elem_of_join_serial. split.
  - intros (t & srow & Hin & Hsrow & Hc & ->).
    apply elem_of_groupBy_count in Hin as [Hin Hn].
    destruct (extract_row_inv _ _ _ He Hin) as (j & Hj & Hjl & _). cbn in Hj, Hjl.
    apply elem_of_serial_df_iff in Hsrow as (d & Hd & Hty & ->).
    unfold serial_cond in Hc. cbn [serial_lc] in Hc. rewrite Hjl in Hc.
    apply sql_eq_holds in Hc as (v & [= <-] & Hv).
    destruct (dc_title d) as [u|] eqn:Hu; [|done]. injection Hv as Hv.
    exists j, d, u. rewrite Hj, Hjl in Hin. repeat (split; [done|]).
    unfold select_stage1. cbn. rewrite Hj, Hjl, Hn. f_equal. f_equal. f_equal.
    rewrite Hj, Hjl. by rewrite <- (filter_by_title _ (Some j) Hlc).
  - intros (j & d & u & Hin & Hd & Hty & Hu & Hlow & ->).
    exists {| t_journal := Some j; t_journal_lc := Some (lower j);
              t_count := Z.of_nat (length (List.filter
                                             (fun c => bool_decide (journal c = Some j))
                                             (rows cited))) |},
           {| serial_id := source_id d; serial := dc_title d;
              serial_issn := prism_issn d; serial_eissn := prism_eIssn d;
              open_access := openaccess d; serial_lc := lower_col (dc_title d) |}.
    split; [|split; [|split; [|unfold select_stage1; cbn; by rewrite Hu]]].
    + apply elem_of_groupBy_count. cbn. split; [done|].
      by rewrite <- (filter_by_title _ (Some j) Hlc).
    + apply elem_of_serial_df_iff. by exists d.
    + unfold serial_cond. cbn. rewrite Hu. cbn. rewrite Hlow.
      unfold str_eqb. by rewrite bool_decide_eq_true_2.
Qed.

(** ** How many rows the joins produce (lines 294 and 425-441) *)

Lemma inner_join_length {A B} (cond : A -> B -> tri) (l : list A) (r : list B) :
  length (inner_join cond l r) =
  sum_list (map (fun a => length (matches cond a r)) l).
Proof.
  unfold inner_join. induction l as [|a l IH]; [done|].
  cbn [flat_map map sum_list sum_list_with]. by rewrite length_app, length_map, IH.
Qed.

Lemma left_outer_join_length {A B} (cond : A -> B -> tri) (l : list A) (r : list B) :
  length (left_outer_join cond l r) =
  sum_list (map (fun a => Nat.max 1 (length (matches cond a r))) l).
Proof.
  unfold left_outer_join.
  set (f := fun a => match matches cond a r with
                     | [] => [(a, None)]
                     | ms => map (fun b => (a, Some b)) ms
                     end).
  induction l as [|a l IH]; [done|].
  change (flat_map f (a :: l)) with (f a ++ flat_map f l)%list.
  rewrite length_app, IH. cbn [map sum_list sum_list_with]. f_equal.
  unfold f. destruct (matches cond a r) as [|b ms]; [done|].
  rewrite length_map. unfold id. cbn [length]. lia.
Qed.

(** X6.  Both joins fan out.  The serial join has, for each tally row, one
    row per registry entry with the same lower-cased title, and none when
    there is no such entry; the subscription join has, for each row of the
    serial join, one row per matching subscription row, and exactly one when
    nothing matches, so it never has fewer rows than the serial join. *)
Theorem join_row_counts
    (raw lc cnt : string) (tally : DataFrame TallyRow) (serials : DataFrame SerialRow)
    (stage1 : DataFrame Stage1Row) (ss : DataFrame SsRow) :
  length (rows (join_serial raw lc tally serials)) =
    sum_list (map (fun t => length (matches serial_cond t (rows serials))) (rows tally)) /\
  length (rows (join_ss stage1 ss)) =
    sum_list (map (fun r => Nat.max 1 (length (matches subscription_cond r (rows ss))))
                  (rows stage1)) /\
  length (rows stage1) <= length (rows (join_ss stage1 ss)).
Proof.
  unfold join_serial, join_ss. cbn [rows].
  rewrite length_map, inner_join_length, left_outer_join_length.
  split; [done|]. split; [done|].
  induction (rows stage1) as [|r l IH]; [done|].
  cbn [map length].
  change (sum_list (?x :: ?xs)) with (x + sum_list xs). lia.
Qed.

(** ** The subscription frame (lines 384-390) *)

Lemma remove_dups_length_le {X} `{EqDecision X} (l : list X) :
  length (remove_dups l) <= length l.
Proof.
  induction l as [|x l IH]; [done|]. cbn [remove_dups].
  destruct (decide_rel elem_of x l); cbn [length]; lia.
Qed.

Lemma remove_dups_length_eq {X} `{EqDecision X} (l : list X) :
  length (remove_dups l) = length l <-> NoDup l.
Proof.
  induction l as [|x l IH]; [by split; [constructor|]|].
  cbn [remove_dups]. pose proof (remove_dups_length_le l) as Hle.
  destruct (decide_rel elem_of x l) as [Hin|Hnot]; cbn [length].
  - split; [lia|]. by intros [? _]%NoDup_cons.
  - rewrite NoDup_cons, <- IH. split; [intros [= ?]; by split | intros [_ ->]; done].
Qed.

(** X7.  After line 390 the subscription frame has no two equal rows and
    still has every row of the export, in its normalised form: a row that
    differs from all others is never removed.  Duplicates are judged after
    the titles are normalised, so the frame is as long as the export
    exactly when no two rows of the export normalise to the same row.  The
    identifiers are the export's, as they are. *)
Theorem subscription_frame_deduplicated (csv : list SsRow) :
  NoDup (rows (ss_df csv)) /\
  (forall raw, raw ∈ csv -> ss_title raw ∈ rows (ss_df csv)) /\
  (forall s, s ∈ rows (ss_df csv) ->
     exists raw, raw ∈ csv /\ Title s = normalize <$> Title raw /\
                 ISSN s = ISSN raw /\ eISSN s = eISSN raw) /\
  length (rows (ss_df csv)) <= length csv /\
  (length (rows (ss_df csv)) = length csv <-> NoDup (map ss_title csv)).
Proof.
  unfold ss_df. cbn [rows]. split; [apply NoDup_remove_dups|]. split; [|split; [|split]].
  - intros raw Hraw. apply elem_of_remove_dups, list_elem_of_fmap. by exists raw.
  - intros s (raw & -> & Hraw)%elem_of_remove_dups%list_elem_of_fmap.
    exists raw. split; [done|]. split; [apply ss_title_normalize | done].
  - etrans; [apply remove_dups_length_le|]. by rewrite length_map.
  - rewrite <- remove_dups_length_eq. by rewrite length_map.
Qed.

(** ** Symmetry of the subscription condition (lines 425-441) *)

Lemma sql_or_comm (a b : tri) : sql_or a b = sql_or b a.
Proof. by destruct a as [[]|], b as [[]|]. Qed.

Lemma sql_or_assoc (a b c : tri) : sql_or (sql_or a b) c = sql_or a (sql_or b c).
Proof. by destruct a as [[]|], b as [[]|], c as [[]|]. Qed.

(** X8.  The subscription condition does not tell print from electronic
    identifiers: exchanging ISSN and eISSN in the subscription row, or in
    the serial-join row, leaves its three-valued result unchanged. *)
Theorem subscription_cond_swaps (r : Stage1Row) (s : SsRow) :
  subscription_cond r {| Title := Title s; ISSN := eISSN s; eISSN := ISSN s |}
    = subscription_cond r s /\
  subscription_cond
    {| s_serial_id := s_serial_id r; s_journal := s_journal r;
       s_journal_lc := s_journal_lc r; s_issn := s_eissn r; s_eissn := s_issn r;
       s_open_access := s_open_access r; s_count := s_count r;
       s_serial := s_serial r; s_serial_lc := s_serial_lc r |} s
    = subscription_cond r s.
Proof.
  unfold subscription_cond. cbn. split.
  - by rewrite (sql_or_comm (sql_eq (of_str (s_issn r)) (of_str (eISSN s)))),
      (sql_or_comm (sql_eq (of_str (s_eissn r)) (of_str (ISSN s)))).
  - rewrite !sql_or_assoc. f_equal.
    rewrite (sql_or_comm (sql_eq (of_str (s_eissn r)) (of_str (ISSN s)))),
      (sql_or_comm (sql_eq (of_str (s_issn r)) (of_str (eISSN s)))).
    apply sql_or_comm.
Qed.

(** ** Saving never touches what is there (lines 452 and 735) *)

(** X9.  A saving cell never changes or removes a file that exists: after
    the cell, every path that held a table holds the same table, and the
    only path that can differ is the cell's own, when it was free and now
    holds the frame. *)
Theorem save_keeps_existing_files
    {R} (df : DataFrame R) (path : string) (files : gmap string Table) :
  (forall p t, files !! p = Some t ->
     (run_cell (save df path) files).1 !! p = Some t) /\
  (forall p, (run_cell (save df path) files).1 !! p <> files !! p ->
     p = path /\ files !! path = None /\
     (run_cell (save df path) files).1 !! path = Some (to_table df)).
Proof.
  unfold run_cell, save. destruct (files !! path) as [t0|] eqn:E; cbn [fst].
  - split; [done|]. by intros p [].
  - split.
    + intros p t Hp. rewrite lookup_insert_ne; [done|]. intros <-. congruence.
    + intros p Hne. destruct (decide (path = p)) as [<-|Hp].
      * split; [done|]. split; [done|]. apply lookup_insert_eq.
      * by rewrite lookup_insert_ne in Hne.
Qed.

Lemma save_keeps_existing_files_witness :
  (run_cell (save (mkDF ss_schema []) "../data/ref_journals.parquet")
            {[ "../data/ref_journals.parquet" :=
                 {| table_columns := ["Title"]; table_rows := [] |} ]}).1
    !! "../data/ref_journals.parquet"
  = Some {| table_columns := ["Title"]; table_rows := [] |}.
Proof.
  apply (proj1 (save_keeps_existing_files (mkDF ss_schema [])
                  "../data/ref_journals.parquet"
                  {[ "../data/ref_journals.parquet" :=
                       {| table_columns := ["Title"]; table_rows := [] |} ]})).
  apply lookup_singleton_eq.
Defined.

(** ** The publication analysis (lines 542-794) *)

Lemma elem_of_journal_titles docs (r : TitleRow) :
  r ∈ rows (journal_titles docs) <->
  exists d, d ∈ docs /\ aggregationType d = Some "Journal" /\
            r = {| journal := publicationName d;
                   journal_lc := lower_col (publicationName d) |}.
Proof.
  unfold journal_titles. cbn [rows]. rewrite list_elem_of_fmap. split.
  - intros (d & -> & Hd). apply list_elem_of_In, filter_In in Hd as [Hd Ht].
    exists d. split; [by apply list_elem_of_In|]. split; [by apply type_test_holds | done].
  - intros (d & Hd & Ht & ->). exists d. split; [done|].
    apply list_elem_of_In, filter_In. split; [by apply list_elem_of_In|].
    by apply type_test_holds.
Qed.

Lemma journal_titles_count docs (a : option string) :
  length (List.filter
            (fun r => bool_decide ((journal r, journal_lc r) = (a, lower_col a)))
            (rows (journal_titles docs)))
  = length (List.filter
              (fun d => bool_decide (aggregationType d = Some "Journal" /\
                                     publicationName d = a))
              docs).
Proof.
  unfold journal_titles. cbn [rows]. induction docs as [|d docs IH]; [done|].
  cbn [List.filter map].
  destruct (holds (sql_eq (of_str (aggregationType d)) (VStr "Journal"))) eqn:E.
  - apply type_test_holds in E. cbn [map List.filter journal journal_lc].
    destruct (decide (publicationName d = a)) as [Ha|Ha].
    + rewrite !bool_decide_eq_true_2; [|done|by rewrite Ha]. cbn [length]. by rewrite IH.
    + rewrite !bool_decide_eq_false_2; [done|by intros [_ ?]|by intros [= ? _]].
  - rewrite bool_decide_eq_false_2; [done|]. intros [Ht _].
    apply type_test_holds in Ht. congruence.
Qed.

Lemma sorted_tally (df : DataFrame TitleRow) :
  sort_desc "count" (groupBy_count "journal" "journal_lc" df) =
  Ok (mkDF (tally_schema "journal" "journal_lc")
        (sort_rows_desc t_count (rows (groupBy_count "journal" "journal_lc" df)))).
Proof. reflexivity. Qed.

Lemma elem_of_publication_tally (docs : list Document) (t : TallyRow) :
  t ∈ sort_rows_desc t_count
        (rows (groupBy_count "journal" "journal_lc" (journal_titles docs))) <->
  (exists d, d ∈ docs /\ aggregationType d = Some "Journal" /\
             publicationName d = t_journal t) /\
  t_journal_lc t = lower_col (t_journal t) /\
  t_count t =
    Z.of_nat (length (List.filter
                        (fun d => bool_decide (aggregationType d = Some "Journal" /\
                                               publicationName d = t_journal t))
                        docs)).
Proof.
  rewrite sort_rows_desc_perm, elem_of_groupBy_count, elem_of_journal_titles.
  split.
  - intros [(d & Hd & Hty & [= Hj Hl]) Hn]. split; [by exists d|].
    assert (Hlc : t_journal_lc t = lower_col (t_journal t)) by (by rewrite Hl, Hj).
    split; [done|]. rewrite Hn, Hlc. by rewrite journal_titles_count.
  - intros [(d & Hd & Hty & Hj) [Hl Hn]]. split.
    + exists d. split; [done|]. split; [done|]. by rewrite Hl, Hj.
    + by rewrite Hn, Hl, journal_titles_count.
Qed.

(** X11.  The publication tally, sorted by line 616: by decreasing count,
    one row per venue title found on the documents typed exactly [Journal]
    (documents of any other type, or without a type, are not counted), with
    the number of those documents as count.  Documents without a venue title
    are counted too, together, in a row whose title is NULL. *)
Theorem publication_tally_rows (docs : list Document) :
  exists tally,
    sort_desc "count" (groupBy_count "journal" "journal_lc" (journal_titles docs))
      = Ok tally /\
    Sorted (fun a b => (t_count b <= t_count a)%Z) (rows tally) /\
    forall t, t ∈ rows tally <->
      (exists d, d ∈ docs /\ aggregationType d = Some "Journal" /\
                 publicationName d = t_journal t) /\
      t_journal_lc t = lower_col (t_journal t) /\
      t_count t =
        Z.of_nat (length (List.filter
                            (fun d => bool_decide (aggregationType d = Some "Journal" /\
                                                   publicationName d = t_journal t))
                            docs)).
Proof.
  eexists. split; [apply sorted_tally|]. cbn [rows].
  split; [apply sort_rows_desc_sorted|]. intros t. apply elem_of_publication_tally.
Qed.

Lemma line_678_ok (tally : DataFrame TallyRow) (serials : DataFrame SerialRow) :
  line_678 (join_serial "journal" "journal_lc" tally serials) =
  Ok (mkDF (stage1_schema "journal" "journal_lc" "count")
        (rows (join_serial "journal" "journal_lc" tally serials))).
Proof. reflexivity. Qed.

Lemma journal_stage1_rows
    (docs : list Document) (serials : list SerialDoc) (stage1 : DataFrame Stage1Row) :
  journal_stage1 docs serials = Ok stage1 ->
  rows stage1 =
  rows (join_serial "journal" "journal_lc"
          (mkDF (tally_schema "journal" "journal_lc")
             (sort_rows_desc t_count
                (rows (groupBy_count "journal" "journal_lc" (journal_titles docs)))))
          (serial_df serials)).
Proof.
  unfold journal_stage1. rewrite sorted_tally. cbn [mbind result_bind].
  rewrite line_678_ok. by intros [= <-].
Qed.

(** X12.  The rows of the publication serial join, read off the inputs:
    one row for each venue title of the documents typed [Journal] and each
    registry entry typed [journal] whose title has the same lower-cased
    form, with the number of those documents as count.  Documents without a
    venue title never reach this frame: the comparison with a NULL title is
    never TRUE. *)
Theorem publication_serial_join_rows
    (docs : list Document) (serials : list SerialDoc)
    (stage1 : DataFrame Stage1Row) (r : Stage1Row) :
  journal_stage1 docs serials = Ok stage1 ->
  (r ∈ rows stage1 <->
   exists j d sd u,
     d ∈ docs /\ aggregationType d = Some "Journal" /\ publicationName d = Some j /\
     sd ∈ serials /\ prism_aggregationType sd = Some "journal" /\
     dc_title sd = Some u /\ lower u = lower j /\
     r = {| s_serial_id := source_id sd; s_journal := Some j;
            s_journal_lc := Some (lower j);
            s_issn := prism_issn sd; s_eissn := prism_eIssn sd;
            s_open_access := openaccess sd;
            s_count :=
              Z.of_nat (length (List.filter
                                  (fun d => bool_decide
                                              (aggregationType d = Some "Journal" /\
                                               publicationName d = Some j))
                                  docs));
            s_serial := Some u; s_serial_lc := Some (lower u) |}).
Proof.
  intros E. rewrite (journal_stage1_rows _ _ _ E), elem_of_join_serial.
  cbn [rows]. split.
  - intros (t & srow & Hin & Hsrow & Hc & ->).
    apply elem_of_publication_tally in Hin as [(d & Hd & Hty & Hj) [Hl Hn]].
    apply elem_of_serial_df_iff in Hsrow as (sd & Hsd & Hsty & ->).
    unfold serial_cond in Hc. cbn [serial_lc] in Hc.
    apply sql_eq_holds in Hc as (v & Hv1 & Hv2).
    destruct (t_journal t) as [j|] eqn:Ej; [|by rewrite Hl in Hv1].
    rewrite Hl in Hv1. injection Hv1 as <-.
    destruct (dc_title sd) as [u|] eqn:Hu; [|done]. injection Hv2 as Hv2.
    exists j, d, sd, u. repeat (split; [done|]).
    unfold select_stage1. cbn. by rewrite Ej, Hl, Hn.
  - intros (j & d & sd & u & Hd & Hty & Hj & Hsd & Hsty & Hu & Hlow & ->).
    exists {| t_journal := Some j; t_journal_lc := Some (lower j);
              t_count := Z.of_nat (length (List.filter
                (fun d => bool_decide (aggregationType d = Some "Journal" /\
                                       publicationName d = Some j)) docs)) |},
           {| serial_id := source_id sd; serial := dc_title sd;
              serial_issn := prism_issn sd; serial_eissn := prism_eIssn sd;
              open_access := openaccess sd; serial_lc := lower_col (dc_title sd) |}.
    split; [|split; [|split; [|unfold select_stage1; cbn; by rewrite Hu]]].
    + apply elem_of_publication_tally. cbn. split; [by exists d | done].
    + apply elem_of_serial_df_iff. by exists sd.
    + unfold serial_cond. cbn. rewrite Hu. cbn. rewrite Hlow.
      unfold str_eqb. by rewrite bool_decide_eq_true_2.
Qed.

(** X13.  The published-not-subscribed report reads the joined frame and
    never raises.  It lists, by decreasing count, exactly the joined rows
    whose subscription title is NULL: the rows that matched no subscription
    row, and also the rows that matched, through an identifier, a
    subscription row that has no title.  Each listed row shows the serial
    id, the venue title, the two identifiers, the open-access flag and the
    count. *)
Theorem published_report_rows
    (docs : list Document) (serials : list SerialDoc) (csv : list SsRow) :
  exists df rep,
    journal_df docs serials csv = Ok df /\
    published_not_subscribed df = Ok rep /\
    (forall m, m ∈ rows rep <->
       m ∈ rows df /\ (m.2 = None \/ exists b, m.2 = Some b /\ Title b = None)) /\
    Sorted (fun a b : Stage1Row * option SsRow => (s_count b.1 <= s_count a.1)%Z)
           (rows rep) /\
    (forall m : Stage1Row * option SsRow,
       cells (schema rep) m =
       [of_str (s_serial_id m.1); of_str (s_journal m.1); of_str (s_issn m.1);
        of_str (s_eissn m.1); of_str (s_open_access m.1); VInt (s_count m.1)]).
Proof.
  eexists _, _. split; [reflexivity|]. split; [reflexivity|].
  split; [|split; [|done]].
  - intros m. cbn [rows filter_by]. rewrite sort_rows_desc_perm.
    rewrite list_elem_of_In, filter_In, <- list_elem_of_In.
    apply and_iff_compat_l. destruct m as [r [b|]]; cbn.
    + destruct (Title b) as [t|] eqn:Et; cbn.
      * split; [done|]. intros [[=] | (b' & [= <-] & Hn)]. congruence.
      * split; [|done]. intros _. right. by exists b.
    + split; [by left | done].
  - apply (sort_rows_desc_sorted (fun m : Stage1Row * option SsRow => s_count m.1)).
Qed.

(** X14.  The serial join is inner and the subscription join is left-outer:
    a tally row without a registry entry of the same lower-cased title gives
    no row; every row of the serial join is in the subscription join; and
    the three subscription cells of a joined row are all NULL exactly when
    no subscription row matched it. *)
Theorem reference_joins_inner_then_outer
    (tally : DataFrame TallyRow) (serials : DataFrame SerialRow)
    (stage1 : DataFrame Stage1Row) (csv : list SsRow) :
  (forall t, t ∈ rows tally ->
     (forall s, s ∈ rows serials -> holds (serial_cond t s) = false) ->
     forall s, (t, s) ∉ inner_join serial_cond (rows tally) (rows serials)) /\
  (forall r, r ∈ rows stage1 -> exists ob, (r, ob) ∈ rows (ref_journals stage1 csv)) /\
  (forall r ob, (r, ob) ∈ rows (ref_journals stage1 csv) ->
     r ∈ rows stage1 /\
     (cells (outer_schema [] ss_schema) (r, ob) = [VNull; VNull; VNull] <->
      forall s, s ∈ rows (ss_df csv) -> holds (subscription_cond r s) = false)).
Proof.
  split.
  - intros t _ Hall s (_ & Hs & Hc)%elem_of_inner_join.
    rewrite (Hall s Hs) in Hc. done.
  - apply subscription_join_is_left_outer.
Qed.

(** ** Header aliases (line 381) *)

Lemma str_replace_char (a b x : ascii) (s : string) :
  str_replace (String x s) (String a "") (String b "") =
  String (if Ascii.eqb a x then b else x) (str_replace s (String a "") (String b "")).
Proof.
  unfold str_replace. cbn [replace_from starts_with String.length].
  rewrite andb_true_r. by destruct (Ascii.eqb a x).
Qed.

Lemma sanitize_header_cons (x : ascii) (s : string) :
  sanitize_header (String x s) =
  String (if Ascii.eqb " " x then "_"%char
          else if Ascii.eqb "-" x then "_"%char else x)
         (sanitize_header s).
Proof.
  unfold sanitize_header. rewrite !str_replace_char.
  destruct (Ascii.eqb_spec " " x) as [<-|]; [done|]. done.
Qed.

Lemma contains_char (a x : ascii) (s : string) :
  contains (String a "") (String x s) = Ascii.eqb a x || contains (String a "") s.
Proof. cbn [contains starts_with]. by rewrite andb_true_r. Qed.

(** X15.  The alias of a header has neither blanks nor hyphens, is as long
    as the header, and differs from it only where the header has a blank or
    a hyphen; in particular a header without them (as [Title], [ISSN] and
    [eISSN]) is its own alias, and aliasing twice changes nothing more. *)
Theorem sanitize_header_properties (column : string) :
  contains " " (sanitize_header column) = false /\
  contains "-" (sanitize_header column) = false /\
  String.length (sanitize_header column) = String.length column /\
  sanitize_header (sanitize_header column) = sanitize_header column /\
  (contains " " column = false -> contains "-" column = false ->
   sanitize_header column = column).
Proof.
  induction column as [|x s (IH1 & IH2 & IH3 & IH4 & IH5)]; [done|].
  rewrite sanitize_header_cons.
  split; [|split; [|split; [|split]]].
  - rewrite contains_char, IH1.
    destruct (Ascii.eqb_spec " " x) as [<-|Hx]; [done|].
    destruct (Ascii.eqb_spec "-" x) as [<-|Hy]; [done|].
    by rewrite (proj2 (Ascii.eqb_neq _ _) Hx).
  - rewrite contains_char, IH2.
    destruct (Ascii.eqb_spec " " x) as [<-|Hx]; [done|].
    destruct (Ascii.eqb_spec "-" x) as [<-|Hy]; [done|].
    by rewrite (proj2 (Ascii.eqb_neq _ _) Hy).
  - cbn [String.length]. by rewrite IH3.
  - rewrite sanitize_header_cons, IH4. f_equal.
    destruct (Ascii.eqb_spec " " x) as [<-|Hx]; [done|].
    destruct (Ascii.eqb_spec "-" x) as [<-|Hy]; [done|].
    by rewrite (proj2 (Ascii.eqb_neq _ _) Hx), (proj2 (Ascii.eqb_neq _ _) Hy).
  - rewrite !contains_char. intros [Hx Hs]%orb_false_iff [Hy Hs']%orb_false_iff.
    rewrite Hx, Hy. by rewrite (IH5 Hs Hs').
Qed.

Lemma sanitize_header_properties_witness : sanitize_header "eISSN" = "eISSN".
Proof.
  apply (proj2 (proj2 (proj2 (proj2 (sanitize_header_properties "eISSN")))));
    reflexivity.
Defined.

Example sanitize_header_examples :
  sanitize_header "Date First Issue Online" = "Date_First_Issue_Online" /\
  sanitize_header "e-ISSN" = "e_ISSN".
Proof. split; reflexivity. Qed.


End Properties.
(** * Runs of the notebook on ASCII titles *)

(** The titles below are ASCII, where [lower()] is [ascii_lower] on every
    engine that obeys [lower_ascii]; the runs are computed with that
    instance. *)

#[local] Existing Instance ascii_engine.

Lemma null_titled_source_discarded_witness :
  rows <$> extract [ {| tmp_first := Some "Nature"; tmp_second := Some "A paper" |};
                     {| tmp_first := Some "Null"; tmp_second := Some "Another paper" |} ]
  = rows <$> extract [ {| tmp_first := Some "Nature"; tmp_second := Some "A paper" |} ].
Proof.
  exact (proj1 (null_titled_source_discarded
                  [ {| tmp_first := Some "Nature"; tmp_second := Some "A paper" |} ] []
                  {| tmp_first := Some "Null"; tmp_second := Some "Another paper" |}
                  "Null" eq_refl eq_refl)).
Defined.

(** The claim of C10 fails outside the reference analysis: the publication
    analysis never compares a title with the text [null], so a venue titled
    [Null], which the extractor discards as a source title, has its row in
    the publication tally, in both joins and in the published-not-subscribed
    report. *)
Lemma null_titled_venue_is_reported :
  lower "Null" = "null" /\
  rows <$> extract [ {| tmp_first := Some "Null"; tmp_second := Some "A paper" |} ]
    = Ok [] /\
  rows <$> journal_df
    [ {| aggregationType := Some "Journal"; doc_source_id := Some "4700152857";
         publicationName := Some "Null" |} ]
    [ {| source_id := Some "4700152857"; dc_title := Some "Null";
         prism_issn := Some "1234-5678"; prism_eIssn := None; openaccess := None;
         prism_aggregationType := Some "journal" |} ]
    []
  = Ok [ ({| s_serial_id := Some "4700152857"; s_journal := Some "Null";
             s_journal_lc := Some "null"; s_issn := Some "1234-5678";
             s_eissn := None; s_open_access := None; s_count := 1;
             s_serial := Some "Null"; s_serial_lc := Some "null" |}, None) ] /\
  rows <$> (journal_df
    [ {| aggregationType := Some "Journal"; doc_source_id := Some "4700152857";
         publicationName := Some "Null" |} ]
    [ {| source_id := Some "4700152857"; dc_title := Some "Null";
         prism_issn := Some "1234-5678"; prism_eIssn := None; openaccess := None;
         prism_aggregationType := Some "journal" |} ]
    [] ≫= published_not_subscribed)
  = Ok [ ({| s_serial_id := Some "4700152857"; s_journal := Some "Null";
             s_journal_lc := Some "null"; s_issn := Some "1234-5678";
             s_eissn := None; s_open_access := None; s_count := 1;
             s_serial := Some "Null"; s_serial_lc := Some "null" |}, None) ].
Proof. repeat split. Qed.

(** The claim of C4 fails: a source title without a work title is dropped,
    because [ref_journal_lc != ref_title_lc] is unknown on a NULL. *)
Lemma source_without_work_title_dropped :
  tmp_first {| tmp_first := Some "Nature"; tmp_second := None |} = Some "Nature" /\
  tmp_second {| tmp_first := Some "Nature"; tmp_second := None |} = None /\
  rows <$> extract [ {| tmp_first := Some "Nature"; tmp_second := None |} ] = Ok [].
Proof. by rewrite extract_rows_fmap. Qed.

Lemma extractor_drops_and_keeps_witness :
  rows <$> extract [ {| tmp_first := Some "Nature"; tmp_second := None |} ]
    = rows <$> extract [] /\
  rows <$> extract [ {| tmp_first := Some "Nature"; tmp_second := Some "null" |} ]
    = Ok [ {| journal := Some "Nature"; journal_lc := Some "nature" |} ].
Proof.
  split.
  - apply (proj1 (proj2 (extractor_drops_and_keeps [] []
                    {| tmp_first := Some "Nature"; tmp_second := None |}))).
    right; left; reflexivity.
  - refine (proj1 (proj1 (extractor_drops_and_keeps [] []
                    {| tmp_first := Some "Nature"; tmp_second := Some "null" |})
                    "Nature" "null" eq_refl eq_refl _ _)); by vm_compute.
Defined.

(** The claim of C3 fails: two retained pairs whose source titles differ
    only in case are counted in two rows, each with count one. *)
Lemma tally_splits_case_variants :
  differ_only_in_case "Nature" "NATURE" = true /\
  lower "Nature" = lower "NATURE" /\
  rows <$> ref_tally
    [ {| tmp_first := Some "Nature"; tmp_second := Some "A paper" |};
      {| tmp_first := Some "NATURE"; tmp_second := Some "Another paper" |} ]
  = Ok [ {| t_journal := Some "NATURE"; t_journal_lc := Some "nature"; t_count := 1 |};
         {| t_journal := Some "Nature"; t_journal_lc := Some "nature"; t_count := 1 |} ].
Proof. repeat split. Qed.

(** The claim of C6 fails: a reference whose two titles are equal passes the
    first condition alone, and the filter of line 206 removes it. *)
Lemma chained_and_is_not_the_first_condition :
  rows <$> filter_py cond_206
    (mkDF ref_schema
       [with_lc {| tmp_first := Some "Health"; tmp_second := Some "Health" |}])
  = Ok [] /\
  rows <$> filter_sql "ref_journal_lc!='null'"
    (mkDF ref_schema
       [with_lc {| tmp_first := Some "Health"; tmp_second := Some "Health" |}])
  = Ok [with_lc {| tmp_first := Some "Health"; tmp_second := Some "Health" |}].
Proof. split; reflexivity. Qed.

Example normalize_nature :
  normalize "Nature" = "nature" /\ normalize "NATURE" = "nature".
Proof. split; reflexivity. Qed.

(** The claim of C9 fails: on two ampersands one blank apart the
    replacement leaves an occurrence behind, which a second pass replaces. *)
Lemma normalize_not_idempotent :
  normalize "a & & b" = "a and & b" /\
  normalize (normalize "a & & b") = "a and and b" /\
  normalize (normalize "a & & b") <> normalize "a & & b".
Proof. split; [reflexivity|]. split; [reflexivity|]. by vm_compute. Qed.

Lemma normalize_case_insensitive_idempotent_iff_witness :
  normalize "Nature" = normalize "NATURE" /\
  normalize (normalize "Theory, Culture & Society")
  = normalize "Theory, Culture & Society".
Proof.
  split.
  - apply (proj1 (proj2 (@normalize_case_insensitive_idempotent_iff
                           ascii_engine ascii_laws "Nature" "NATURE")));
      reflexivity.
  - apply (proj2 (proj2 (proj2 (proj2 (@normalize_case_insensitive_idempotent_iff
                           ascii_engine ascii_laws "Theory, Culture & Society" ""))))).
    reflexivity.
Defined.

(** The claim of C5 fails: the serial and reference titles keep their
    ampersand, the subscription title loses it, and the two do not match. *)
Lemma ampersand_titles_do_not_match :
  lower "Theory, Culture & Society" <> normalize "Theory, Culture and Society" /\
  (ref_journal_df
     [ {| tmp_first := Some "Theory, Culture & Society"; tmp_second := Some "A paper" |} ]
     [ {| source_id := Some "23648"; dc_title := Some "Theory, Culture & Society";
          prism_issn := None; prism_eIssn := None; openaccess := None;
          prism_aggregationType := Some "journal" |} ]
   ≫= fun df =>
     Ok (rows (ref_journals df
                 [ {| Title := Some "Theory, Culture and Society";
                      ISSN := None; eISSN := None |} ])))
  = Ok [ ({| s_serial_id := Some "23648";
             s_journal := Some "Theory, Culture & Society";
             s_journal_lc := Some "theory, culture & society";
             s_issn := None; s_eissn := None; s_open_access := None;
             s_count := 1; s_serial := Some "Theory, Culture & Society";
             s_serial_lc := Some "theory, culture & society" |}, None) ].
Proof. split; [by vm_compute | reflexivity]. Qed.

Lemma titles_normalized_per_source_witness :
  exists j d raw,
    Some "Theory, Culture and Society" = Some j /\
    Some "theory, culture and society" = Some (lower j) /\
    d ∈ [ {| source_id := Some "23648"; dc_title := Some "Theory, Culture and Society";
             prism_issn := None; prism_eIssn := None; openaccess := None;
             prism_aggregationType := Some "journal" |} ] /\
    lower_col (dc_title d) = Some (lower j) /\
    raw ∈ [ {| Title := Some "Theory, Culture & Society"; ISSN := None; eISSN := None |} ] /\
    Some "theory, culture and society" = normalize <$> Title raw /\
    (holds (sql_eq (of_str (Some "theory, culture and society"))
                   (of_str (Some "theory, culture and society"))) = true <->
     exists u, Title raw = Some u /\ lower j = normalize u).
Proof.
  refine (titles_normalized_per_source
    [ {| tmp_first := Some "Theory, Culture and Society"; tmp_second := Some "A paper" |} ]
    [ {| source_id := Some "23648"; dc_title := Some "Theory, Culture and Society";
         prism_issn := None; prism_eIssn := None; openaccess := None;
         prism_aggregationType := Some "journal" |} ]
    [ {| Title := Some "Theory, Culture & Society"; ISSN := None; eISSN := None |} ]
    (mkDF (joined_schema "ref_journal" "ref_journal_lc")
       [ {| s_serial_id := Some "23648";
            s_journal := Some "Theory, Culture and Society";
            s_journal_lc := Some "theory, culture and society";
            s_issn := None; s_eissn := None; s_open_access := None;
            s_count := 1; s_serial := Some "Theory, Culture and Society";
            s_serial_lc := Some "theory, culture and society" |} ])
    {| s_serial_id := Some "23648";
       s_journal := Some "Theory, Culture and Society";
       s_journal_lc := Some "theory, culture and society";
       s_issn := None; s_eissn := None; s_open_access := None;
       s_count := 1; s_serial := Some "Theory, Culture and Society";
       s_serial_lc := Some "theory, culture and society" |}
    {| Title := Some "theory, culture and society"; ISSN := None; eISSN := None |}
    _ _ _).
  - reflexivity.
  - apply list_elem_of_here.
  - vm_compute. apply list_elem_of_here.
Defined.

(** The claim of C1 fails: the reference title and the subscription title
    are the same string, so any one normalisation makes them equal, and the
    identifiers are absent; yet the join finds no match, because only the
    subscription title has its [" & "] replaced. *)
Lemma equal_ampersand_titles_do_not_match :
  lower "Theory, Culture & Society" <> normalize "Theory, Culture & Society" /\
  (ref_journal_df
     [ {| tmp_first := Some "Theory, Culture & Society"; tmp_second := Some "A paper" |} ]
     [ {| source_id := Some "23648"; dc_title := Some "Theory, Culture & Society";
          prism_issn := None; prism_eIssn := None; openaccess := None;
          prism_aggregationType := Some "journal" |} ]
   ≫= fun df =>
     Ok (rows (ref_journals df
                 [ {| Title := Some "Theory, Culture & Society";
                      ISSN := None; eISSN := None |} ])))
  = Ok [ ({| s_serial_id := Some "23648";
             s_journal := Some "Theory, Culture & Society";
             s_journal_lc := Some "theory, culture & society";
             s_issn := None; s_eissn := None; s_open_access := None;
             s_count := 1; s_serial := Some "Theory, Culture & Society";
             s_serial_lc := Some "theory, culture & society" |}, None) ].
Proof. split; [by vm_compute | reflexivity]. Qed.

Lemma subscription_join_matches_witness :
  ({| s_serial_id := Some "24710";
      s_journal := Some "Annals of Applied Probability";
      s_journal_lc := Some "annals of applied probability";
      s_issn := Some "1050-5164"; s_eissn := None; s_open_access := None;
      s_count := 1; s_serial := Some "Annals of Applied Probability";
      s_serial_lc := Some "annals of applied probability" |},
   Some {| Title := Some "ann. appl. probab."; ISSN := None;
           eISSN := Some "1050-5164" |})
  ∈ rows (ref_journals
            (mkDF (joined_schema "ref_journal" "ref_journal_lc")
               [ {| s_serial_id := Some "24710";
                    s_journal := Some "Annals of Applied Probability";
                    s_journal_lc := Some "annals of applied probability";
                    s_issn := Some "1050-5164"; s_eissn := None;
                    s_open_access := None; s_count := 1;
                    s_serial := Some "Annals of Applied Probability";
                    s_serial_lc := Some "annals of applied probability" |} ])
            [ {| Title := Some "Ann. Appl. Probab."; ISSN := None;
                 eISSN := Some "1050-5164" |} ]).
Proof.
  refine (proj2 (subscription_join_matches
    [ {| tmp_first := Some "Annals of Applied Probability";
         tmp_second := Some "A paper" |} ]
    [ {| source_id := Some "24710"; dc_title := Some "Annals of Applied Probability";
         prism_issn := Some "1050-5164"; prism_eIssn := None; openaccess := None;
         prism_aggregationType := Some "journal" |} ]
    [ {| Title := Some "Ann. Appl. Probab."; ISSN := None; eISSN := Some "1050-5164" |} ]
    _ _ {| Title := Some "Ann. Appl. Probab."; ISSN := None; eISSN := Some "1050-5164" |}
    eq_refl _ _) _).
  - apply list_elem_of_here.
  - apply list_elem_of_here.
  - right; left. exists "1050-5164". split; [reflexivity|].
    split; [discriminate | right; reflexivity].
Defined.

(** One serial, cited twice, and no subscription: the subscription join has
    the row, with no subscription side, and the report cell raises. *)
Example cited_report_on_unsubscribed_serial :
  (ref_journal_df
     [ {| tmp_first := Some "American Review of Respiratory Disease";
          tmp_second := Some "A paper" |};
       {| tmp_first := Some "American Review of Respiratory Disease";
          tmp_second := Some "Another paper" |} ]
     [ {| source_id := Some "32522";
          dc_title := Some "American Review of Respiratory Disease";
          prism_issn := Some "0003-0805"; prism_eIssn := None; openaccess := None;
          prism_aggregationType := Some "journal" |} ]
   ≫= fun df => Ok (rows (ref_journals df [])))
  = Ok [ ({| s_serial_id := Some "32522";
             s_journal := Some "American Review of Respiratory Disease";
             s_journal_lc := Some "american review of respiratory disease";
             s_issn := Some "0003-0805"; s_eissn := None; s_open_access := None;
             s_count := 2;
     s_serial := Some "American Review of Respiratory Disease"; s_serial_lc := Some "american review of respiratory disease" |}, None) ] /\
  (ref_journal_df
     [ {| tmp_first := Some "American Review of Respiratory Disease";
          tmp_second := Some "A paper" |};
       {| tmp_first := Some "American Review of Respiratory Disease";
          tmp_second := Some "Another paper" |} ]
     [ {| source_id := Some "32522";
          dc_title := Some "American Review of Respiratory Disease";
          prism_issn := Some "0003-0805"; prism_eIssn := None; openaccess := None;
          prism_aggregationType := Some "journal" |} ]
   ≫= cited_not_subscribed) = Err (AttributeError "Title").
Proof. split; reflexivity. Qed.

Lemma reference_serial_join_rows_witness :
  {| s_serial_id := Some "32522";
     s_journal := Some "American Review of Respiratory Disease";
     s_journal_lc := Some "american review of respiratory disease";
     s_issn := Some "0003-0805"; s_eissn := None; s_open_access := None;
     s_count := 2;
     s_serial := Some "AMERICAN REVIEW OF RESPIRATORY DISEASE"; s_serial_lc := Some "american review of respiratory disease" |}
  ∈ [ {| s_serial_id := Some "32522";
         s_journal := Some "American Review of Respiratory Disease";
         s_journal_lc := Some "american review of respiratory disease";
         s_issn := Some "0003-0805"; s_eissn := None; s_open_access := None;
         s_count := 2;
     s_serial := Some "AMERICAN REVIEW OF RESPIRATORY DISEASE"; s_serial_lc := Some "american review of respiratory disease" |} ].
Proof.
  refine (proj2 (reference_serial_join_rows
    [ {| tmp_first := Some "American Review of Respiratory Disease";
         tmp_second := Some "A paper" |};
      {| tmp_first := Some "American Review of Respiratory Disease";
         tmp_second := Some "Another paper" |} ]
    [ {| source_id := Some "32522";
         dc_title := Some "AMERICAN REVIEW OF RESPIRATORY DISEASE";
         prism_issn := Some "0003-0805"; prism_eIssn := None; openaccess := None;
         prism_aggregationType := Some "journal" |} ]
    (mkDF (title_schema "ref_journal" "ref_journal_lc")
       [ {| journal := Some "American Review of Respiratory Disease";
            journal_lc := Some "american review of respiratory disease" |};
         {| journal := Some "American Review of Respiratory Disease";
            journal_lc := Some "american review of respiratory disease" |} ])
    (mkDF (joined_schema "ref_journal" "ref_journal_lc")
       [ {| s_serial_id := Some "32522";
            s_journal := Some "American Review of Respiratory Disease";
            s_journal_lc := Some "american review of respiratory disease";
            s_issn := Some "0003-0805"; s_eissn := None; s_open_access := None;
            s_count := 2;
     s_serial := Some "AMERICAN REVIEW OF RESPIRATORY DISEASE"; s_serial_lc := Some "american review of respiratory disease" |} ])
    _ eq_refl eq_refl) _).
  exists "American Review of Respiratory Disease",
    {| source_id := Some "32522";
       dc_title := Some "AMERICAN REVIEW OF RESPIRATORY DISEASE";
       prism_issn := Some "0003-0805"; prism_eIssn := None; openaccess := None;
       prism_aggregationType := Some "journal" |},
    "AMERICAN REVIEW OF RESPIRATORY DISEASE".
  split; [apply list_elem_of_here|]. split; [apply list_elem_of_here|].
  repeat split.
Defined.

Lemma publication_serial_join_rows_witness :
  {| s_serial_id := Some "21100407195"; s_journal := Some "Optica";
     s_journal_lc := Some "optica"; s_issn := Some "2334-2536"; s_eissn := None;
     s_open_access := Some "1"; s_count := 1;
     s_serial := Some "Optica"; s_serial_lc := Some "optica" |}
  ∈ [ {| s_serial_id := Some "21100407195"; s_journal := Some "Optica";
         s_journal_lc := Some "optica"; s_issn := Some "2334-2536"; s_eissn := None;
         s_open_access := Some "1"; s_count := 1;
     s_serial := Some "Optica"; s_serial_lc := Some "optica" |} ].
Proof.
  refine (proj2 (publication_serial_join_rows
    [ {| aggregationType := Some "Journal"; doc_source_id := Some "21100407195";
         publicationName := Some "Optica" |};
      {| aggregationType := Some "Conference Proceeding"; doc_source_id := None;
         publicationName := Some "Optica" |} ]
    [ {| source_id := Some "21100407195"; dc_title := Some "Optica";
         prism_issn := Some "2334-2536"; prism_eIssn := None; openaccess := Some "1";
         prism_aggregationType := Some "journal" |} ]
    (mkDF (stage1_schema "journal" "journal_lc" "count")
       [ {| s_serial_id := Some "21100407195"; s_journal := Some "Optica";
            s_journal_lc := Some "optica"; s_issn := Some "2334-2536"; s_eissn := None;
            s_open_access := Some "1"; s_count := 1;
     s_serial := Some "Optica"; s_serial_lc := Some "optica" |} ])
    _ eq_refl) _).
  exists "Optica",
    {| aggregationType := Some "Journal"; doc_source_id := Some "21100407195";
       publicationName := Some "Optica" |},
    {| source_id := Some "21100407195"; dc_title := Some "Optica";
       prism_issn := Some "2334-2536"; prism_eIssn := None; openaccess := Some "1";
       prism_aggregationType := Some "journal" |},
    "Optica".
  split; [apply list_elem_of_here|]. split; [done|]. split; [done|].
  split; [apply list_elem_of_here|]. repeat split.
Defined.

Lemma reference_joins_inner_then_outer_witness :
  exists ob,
    ({| s_serial_id := Some "32522";
        s_journal := Some "American Review of Respiratory Disease";
        s_journal_lc := Some "american review of respiratory disease";
        s_issn := Some "0003-0805"; s_eissn := None; s_open_access := None;
        s_count := 14;
     s_serial := Some "American Review of Respiratory Disease"; s_serial_lc := Some "american review of respiratory disease" |}, ob)
    ∈ rows (ref_journals
              (mkDF (joined_schema "ref_journal" "ref_journal_lc")
                 [ {| s_serial_id := Some "32522";
                      s_journal := Some "American Review of Respiratory Disease";
                      s_journal_lc := Some "american review of respiratory disease";
                      s_issn := Some "0003-0805"; s_eissn := None;
                      s_open_access := None; s_count := 14;
     s_serial := Some "American Review of Respiratory Disease"; s_serial_lc := Some "american review of respiratory disease" |} ])
              [ {| Title := Some "Nature"; ISSN := Some "0028-0836";
                   eISSN := Some "1476-4687" |} ]).
Proof.
  apply (proj1 (proj2 (reference_joins_inner_then_outer
                         (mkDF (tally_schema "ref_journal" "ref_journal_lc") [])
                         (mkDF serial_schema []) _ _))).
  apply list_elem_of_here.
Defined.
